(** * HeyGen dashboard connector: a shallow embedding and its properties

    The development follows [heygen_dashboard_connector.py]:

    - [Py]: the fragment of Python's object model the connector touches
      (JSON-shaped values, exceptions, [str], [repr], truthiness,
      [dict.get], subscripting, iteration, [html.escape]);
    - the module's globals and its functions [fetch_videos],
      [transform_video_data], [compute_api_usage_stats],
      [generate_dashboard_html], one pass of the body of
      [refresh_dashboard_periodically], and [do_GET];
    - an interleaving semantics of the refresher thread and the request
      handler threads around [dashboard_html_lock].

    A Python [str] is represented by the bytes of its UTF-8 encoding, a
    lone surrogate, which a str can hold and JSON can deliver, by the
    three bytes [ED A0..BF xx] the same scheme gives it.
    [content.encode("utf-8")] is the identity on a str without a lone
    surrogate and raises on one with. *)

From Stdlib Require Import ZArith List String Ascii Bool Lia.
From Stdlib Require Import Numbers.DecimalString.
Import ListNotations.

Set Warnings "-register-all".
Local Open Scope Z_scope.
Local Open Scope string_scope.

(** ** Python values and builtins *)

Module Py.

(** What the connector needs from CPython's floating point numbers and
    from the Unicode database.  Both are outside the repository; the
    development is parametric in them. *)
Class Runtime := {
  pyfloat : Type;
  (** [repr(f)], which is also [str(f)] *)
  float_repr : pyfloat -> string;
  (** [bool(f)] *)
  float_bool : pyfloat -> bool;
  (** [a / b] on two ints, [b] not zero *)
  int_truediv : Z -> Z -> pyfloat;
  (** [f * n] with [n] an int *)
  float_mul_int : pyfloat -> Z -> pyfloat;
  (** [round(f, ndigits)] *)
  float_round : pyfloat -> Z -> pyfloat;
  (** the literal [0.0] *)
  float_zero : pyfloat;
  (** [repr(s)] on a str: quoting and escaping *)
  str_repr : string -> string;
  (** [s.lower()] *)
  str_lower : string -> string
}.

Inductive exn : Type :=
| TypeError
| AttributeError
| KeyError (key : string)
| ConnectionError
| HTTPError (status_code : Z)
| JSONDecodeError
| UnicodeEncodeError.

(** The outcome of evaluating an expression: a value or a raised exception. *)
Inductive result (A : Type) : Type :=
| Ok (a : A)
| Raise (e : exn).
Arguments Ok {A} a.
Arguments Raise {A} e.

Definition bind {A B : Type} (m : result A) (k : A -> result B) : result B :=
  match m with
  | Ok a => k a
  | Raise e => Raise e
  end.

Definition is_ok {A : Type} (m : result A) : bool :=
  match m with Ok _ => true | Raise _ => false end.

(** [for x in xs: body(x)] where each pass yields a value or raises. *)
Fixpoint mapM {A B : Type} (f : A -> result B) (xs : list A) : result (list B) :=
  match xs with
  | [] => Ok []
  | x :: rest =>
      bind (f x) (fun y => bind (mapM f rest) (fun ys => Ok (y :: ys)))
  end.

Section Values.
Context {R : Runtime}.

(** The values [response.json()] can produce, which are also the values
    the connector builds.  Dict keys are strings; a dict is kept as an
    association list in insertion order. *)
Inductive pyval : Type :=
| PNone
| PBool (b : bool)
| PInt (n : Z)
| PFloat (f : pyfloat)
| PStr (s : string)
| PList (l : list pyval)
| PDict (d : list (string * pyval)).

Definition lf : string := String (ascii_of_nat 10) EmptyString.

(** [str(n)] on an int *)
Definition int_str (n : Z) : string := NilEmpty.string_of_int (Z.to_int n).

Fixpoint py_repr (v : pyval) : string :=
  match v with
  | PNone => "None"
  | PBool true => "True"
  | PBool false => "False"
  | PInt n => int_str n
  | PFloat f => float_repr f
  | PStr s => str_repr s
  | PList l => "[" ++ String.concat ", " (map py_repr l) ++ "]"
  | PDict d =>
      "{" ++ String.concat ", "
               (map (fun kv => match kv with
                               | (k, x) => str_repr k ++ ": " ++ py_repr x
                               end) d) ++ "}"
  end.

(** [str(v)] *)
Definition py_str (v : pyval) : string :=
  match v with
  | PStr s => s
  | _ => py_repr v
  end.

(** [bool(v)], the test of [if v] and of [v or w] *)
Definition py_truthy (v : pyval) : bool :=
  match v with
  | PNone => false
  | PBool b => b
  | PInt n => negb (n =? 0)%Z
  | PFloat f => float_bool f
  | PStr s => negb (String.eqb s EmptyString)
  | PList l => match l with [] => false | _ => true end
  | PDict d => match d with [] => false | _ => true end
  end.

Definition is_none (v : pyval) : bool :=
  match v with PNone => true | _ => false end.

Definition is_dict (v : pyval) : bool :=
  match v with PDict _ => true | _ => false end.

Definition is_list (v : pyval) : bool :=
  match v with PList _ => true | _ => false end.

(** [v == s] for a str literal [s] *)
Definition py_eq_str (v : pyval) (s : string) : bool :=
  match v with
  | PStr t => String.eqb t s
  | _ => false
  end.

Fixpoint lookup (k : string) (d : list (string * pyval)) : option pyval :=
  match d with
  | [] => None
  | (k', x) :: rest => if String.eqb k k' then Some x else lookup k rest
  end.

(** [k in v] where [v] is known to be a dict *)
Definition dict_mem (k : string) (d : list (string * pyval)) : bool :=
  match lookup k d with Some _ => true | None => false end.

(** [v.get(k, default)]: only a dict has the method *)
Definition py_get (v : pyval) (k : string) (default : pyval) : result pyval :=
  match v with
  | PDict d => Ok (match lookup k d with Some x => x | None => default end)
  | _ => Raise AttributeError
  end.

(** [v[k]] with a str key *)
Definition py_getitem (v : pyval) (k : string) : result pyval :=
  match v with
  | PDict d => match lookup k d with Some x => Ok x | None => Raise (KeyError k) end
  | _ => Raise TypeError
  end.

(** [v.lower()]: only a str has the method *)
Definition py_lower (v : pyval) : result string :=
  match v with
  | PStr s => Ok (str_lower s)
  | _ => Raise AttributeError
  end.

(** A byte [10xxxxxx] continues a UTF-8 sequence. *)
Definition is_continuation (c : ascii) : bool :=
  match c with
  | Ascii _ _ _ _ _ _ false true => true
  | _ => false
  end.

(** The leading continuation bytes of [s], and the characters after them. *)
Fixpoint utf8_split (s : string) : string * list string :=
  match s with
  | EmptyString => (EmptyString, [])
  | String c rest =>
      let (k, cs) := utf8_split rest in
      if is_continuation c then (String c k, cs)
      else (EmptyString, String c k :: cs)
  end.

Definition utf8_chars (s : string) : list string := snd (utf8_split s).

(** The items [for x in v] goes through: the elements of a list, the keys
    of a dict, the characters of a str; anything else is not iterable. *)
Definition py_iter (v : pyval) : result (list pyval) :=
  match v with
  | PList l => Ok l
  | PDict d => Ok (map (fun kv => PStr (fst kv)) d)
  | PStr s => Ok (map PStr (utf8_chars s))
  | _ => Raise TypeError
  end.

Definition escape_char (c : ascii) : string :=
  if Ascii.eqb c "&" then "&amp;"
  else if Ascii.eqb c "<" then "&lt;"
  else if Ascii.eqb c ">" then "&gt;"
  else if Ascii.eqb c (ascii_of_nat 34) then "&quot;"
  else if Ascii.eqb c "'" then "&#x27;"
  else String c EmptyString.

(** [html.escape(s)] with its default [quote=True] *)
Fixpoint html_escape (s : string) : string :=
  match s with
  | EmptyString => EmptyString
  | String c rest => escape_char c ++ html_escape rest
  end.

(** A lone surrogate, U+D800 to U+DFFF: the byte [ED] followed by a byte
    from [A0] to [BF].  In the encoding of any other character [ED] is
    followed by a byte from [80] to [9F]. *)
Fixpoint has_surrogate (s : string) : bool :=
  match s with
  | String c (String c' _ as rest) =>
      (Nat.eqb (nat_of_ascii c) 237
       && Nat.leb 160 (nat_of_ascii c') && Nat.leb (nat_of_ascii c') 191)
      || has_surrogate rest
  | _ => false
  end.

(** [s.encode("utf-8")], with its default [errors="strict"] *)
Definition encode_utf8 (s : string) : result string :=
  if has_surrogate s then Raise UnicodeEncodeError else Ok s.

End Values.

End Py.

Import Py.

Declare Scope res_scope.
Delimit Scope res_scope with res.
Notation "x <- m ;; k" := (bind m (fun x => k))
  (at level 61, m at next level, right associativity) : res_scope.

(** ** The module's globals, its effects, and the outside world *)

(** [api_base_url], [api_endpoints] and [html_template_content] are never
    assigned after the module is loaded. *)
Definition api_base_url : string := "https://api.heygen.com".

Definition api_endpoints : list (string * string) :=
  [ ("list_videos", "/v1/videos");
    ("video_status", "/v1/video_status.get") ].

Definition html_template_sentinel : string := "html_template_sentinel".
Definition html_template_content : string := "</html>".

(** The names a run reads and writes: the configured interval and the
    latest generated page. *)
Record globals : Type := {
  refresh_interval_seconds : Z;
  dashboard_html : string
}.

(** The module as loaded: [refresh_interval_seconds = 5 * 60] and
    [dashboard_html] the empty str. *)
Definition module_globals : globals :=
  {| refresh_interval_seconds := 5 * 60;
     dashboard_html := EmptyString |}.

Definition set_dashboard_html (new_html : string) (g : globals) : globals :=
  {| refresh_interval_seconds := refresh_interval_seconds g;
     dashboard_html := new_html |}.

Inductive message : Type :=
| ErrorFetchingVideos (e : exn)
| DashboardRefreshed
| ErrorDuringRefresh (e : exn).

(** What a run does to the outside, in order. *)
Inductive event : Type :=
| HttpGet (url : string)
| Print (msg : message)
| Sleep (seconds : Z).

(** A statement: from the globals to the new globals, the events it
    caused, and its value or the exception it raised. *)
Definition io (A : Type) : Type := globals -> globals * list event * result A.

Definition ret {A : Type} (a : A) : io A := fun g => (g, [], Ok a).

Definition lift {A : Type} (r : result A) : io A := fun g => (g, [], r).

Definition emit (ev : event) : io unit := fun g => (g, [ev], Ok tt).

Definition read_globals : io globals := fun g => (g, [], Ok g).

Definition assign_dashboard_html (new_html : string) : io unit :=
  fun g => (set_dashboard_html new_html g, [], Ok tt).

Definition iobind {A B : Type} (m : io A) (k : A -> io B) : io B :=
  fun g =>
    match m g with
    | (g1, t1, Ok a) =>
        match k a g1 with
        | (g2, t2, r) => (g2, (t1 ++ t2)%list, r)
        end
    | (g1, t1, Raise e) => (g1, t1, Raise e)
    end.

(** [try: body / except Exception as e: handler(e)] *)
Definition try_except {A : Type} (body : io A) (handler : exn -> io A) : io A :=
  fun g =>
    match body g with
    | (g1, t1, Ok a) => (g1, t1, Ok a)
    | (g1, t1, Raise e) =>
        match handler e g1 with
        | (g2, t2, r) => (g2, (t1 ++ t2)%list, r)
        end
    end.

Declare Scope io_scope.
Delimit Scope io_scope with io.
Notation "x <- m ;; k" := (iobind m (fun x => k))
  (at level 61, m at next level, right associativity) : io_scope.
Notation "m ;;; k" := (iobind m (fun _ => k))
  (at level 61, right associativity) : io_scope.

Section Connector.
Context {R : Runtime}.

(** What [requests.get(url)] meets: no response at all (the call raises),
    or a response with a status code and a body that [response.json()]
    decodes ([Some]) or fails to decode ([None]). *)
Inductive http_reply : Type :=
| NoResponse
| Response (status_code : Z) (json : option pyval).

Definition requests_get (url : string) (net : http_reply)
  : io (Z * option pyval) :=
  (emit (HttpGet url) ;;;
   match net with
   | NoResponse => lift (Raise ConnectionError)
   | Response status_code json => ret (status_code, json)
   end)%io.

(** [Response.raise_for_status()] of the requests library raises
    [HTTPError] for the client and server error codes, 400 to 599. *)
Definition raise_for_status (response : Z * option pyval) : result unit :=
  let status_code := fst response in
  if (400 <=? status_code)%Z && (status_code <? 600)%Z
  then Raise (HTTPError status_code)
  else Ok tt.

Definition response_json (response : Z * option pyval) : result pyval :=
  match snd response with
  | Some data => Ok data
  | None => Raise JSONDecodeError
  end.

(** [api_endpoints[k]] *)
Fixpoint endpoint (k : string) (table : list (string * string)) : result string :=
  match table with
  | [] => Raise (KeyError k)
  | (k', path) :: rest => if String.eqb k k' then Ok path else endpoint k rest
  end.

(** ** [fetch_videos] *)

(** The value of [url] in [fetch_videos]. *)
Definition list_videos_url : string := api_base_url ++ "/v1/videos".

Definition fetch_videos (net : http_reply) : io pyval :=
  (path <- lift (endpoint "list_videos" api_endpoints) ;;
   let url := api_base_url ++ path in
   try_except
     (response <- requests_get url net ;;
      lift (raise_for_status response) ;;;
      data <- lift (response_json response) ;;
      match data with
      | PDict d =>
          if dict_mem "videos" d then lift (py_getitem data "videos")
          else ret (PList [])
      | PList _ => ret data
      | _ => ret (PList [])
      end)
     (fun e => emit (Print (ErrorFetchingVideos e)) ;;; ret (PList [])))%io.


(** ** [transform_video_data] *)

(** [v.get(k) if v.get(k) is not None else None] *)
Definition get_or_none (v : pyval) (k : string) : result pyval :=
  (c <- py_get v k PNone ;;
   if negb (is_none c) then py_get v k PNone else Ok PNone)%res.

(** The dict built for one element of [api_videos]. *)
Definition video_status (v : pyval) : result pyval :=
  (id <- py_get v "id" (PStr EmptyString) ;;
   title <- py_get v "title" (PStr "Untitled") ;;
   template_name <- py_get v "template_name" (PStr "Unknown Template") ;;
   voice_name <- py_get v "voice_name" (PStr "Unknown Voice") ;;
   status <- py_get v "status" (PStr "unknown") ;;
   created_at <- py_get v "created_at" (PStr EmptyString) ;;
   completed_at <- get_or_none v "completed_at" ;;
   thumbnail_url <- get_or_none v "thumbnail_url" ;;
   video_url <- get_or_none v "video_url" ;;
   duration <- get_or_none v "duration" ;;
   Ok (PDict
         [ ("id", PStr (py_str id));
           ("title", title);
           ("template_name", template_name);
           ("voice_name", voice_name);
           ("status", status);
           ("created_at", created_at);
           ("completed_at", completed_at);
           ("thumbnail_url", thumbnail_url);
           ("video_url", video_url);
           ("duration", duration) ]))%res.

Definition transform_video_data (api_videos : pyval) : result (list pyval) :=
  (items <- py_iter api_videos ;;
   mapM video_status items)%res.

(** ** [compute_api_usage_stats] *)

(** [sum(1 for v in videos if v.get("status") == s)] *)
Fixpoint count_status (s : string) (videos : list pyval) : result Z :=
  match videos with
  | [] => Ok 0%Z
  | v :: rest =>
      (st <- py_get v "status" PNone ;;
       n <- count_status s rest ;;
       Ok ((if py_eq_str st s then 1 else 0) + n)%Z)%res
  end.

Definition compute_api_usage_stats (videos : list pyval) : result pyval :=
  let total := Z.of_nat (List.length videos) in
  (completed <- count_status "completed" videos ;;
   processing <- count_status "processing" videos ;;
   failed <- count_status "failed" videos ;;
   let monthly_quota := 1000%Z in
   let remaining := Z.max (monthly_quota - total) 0 in
   let usage_percentage :=
     if (monthly_quota >? 0)%Z
     then float_mul_int (int_truediv total monthly_quota) 100
     else float_zero in
   Ok (PDict
         [ ("total_videos", PInt total);
           ("completed_videos", PInt completed);
           ("processing_videos", PInt processing);
           ("failed_videos", PInt failed);
           ("monthly_quota", PInt monthly_quota);
           ("remaining_quota", PInt remaining);
           ("usage_percentage", PFloat (float_round usage_percentage 2)) ]))%res.

(** ** [generate_dashboard_html] *)

(** [esc(text)]: [html.escape(str(text)) if text is not None else ""] *)
Definition esc (text : pyval) : string :=
  if negb (is_none text) then html_escape (py_str text) else EmptyString.

Definition status_class_of (status_lower : string) : string :=
  if String.eqb status_lower "completed" then "status-completed"
  else if String.eqb status_lower "processing" then "status-processing"
  else if String.eqb status_lower "failed" then "status-failed"
  else EmptyString.

(** [f(v[k]) if v.get(k) else "N/A"] *)
Definition if_get (v : pyval) (k : string) (f : pyval -> string) : result string :=
  (c <- py_get v k PNone ;;
   if py_truthy c then (x <- py_getitem v k ;; Ok (f x)) else Ok "N/A")%res.

(** [esc(v[k]) if v[k] else "N/A"] *)
Definition esc_or_na (v : pyval) (k : string) : result string :=
  (c <- py_getitem v k ;;
   if py_truthy c then (x <- py_getitem v k ;; Ok (esc x)) else Ok "N/A")%res.

(** The lines one pass of [for v in videos] appends to [html_parts]. *)
Definition video_row (v : pyval) : result (list string) :=
  (st <- py_get v "status" (PStr EmptyString) ;;
   status_lower <- py_lower st ;;
   let status_class := status_class_of status_lower in
   thumbnail_html <-
     if_get v "thumbnail_url"
       (fun x => "<img src='" ++ esc x ++ "' alt='Thumbnail' width='120'>") ;;
   video_link_html <-
     if_get v "video_url"
       (fun x => "<a href='" ++ esc x ++ "' target='_blank'>Watch</a>") ;;
   title <- py_getitem v "title" ;;
   template_name <- py_getitem v "template_name" ;;
   voice_name <- py_getitem v "voice_name" ;;
   status <- py_getitem v "status" ;;
   created_at <- py_getitem v "created_at" ;;
   completed_at <- esc_or_na v "completed_at" ;;
   duration <- esc_or_na v "duration" ;;
   Ok [ "      <tr>";
        "        <td>" ++ esc title ++ "</td>";
        "        <td>" ++ esc template_name ++ "</td>";
        "        <td>" ++ esc voice_name ++ "</td>";
        "        <td class='" ++ status_class ++ "'>" ++ esc status ++ "</td>";
        "        <td>" ++ esc created_at ++ "</td>";
        "        <td>" ++ completed_at ++ "</td>";
        "        <td>" ++ duration ++ "</td>";
        "        <td>" ++ thumbnail_html ++ "</td>";
        "        <td>" ++ video_link_html ++ "</td>";
        "      </tr>" ])%res.

(** The refresh hint: the fifth element of [html_parts]. *)
Definition meta_refresh (refresh_seconds : Z) : string :=
  "  <meta http-equiv='refresh' content='" ++ int_str refresh_seconds ++ "'>".

(** The elements of [html_parts] before the refresh hint. *)
Definition head_open : list string :=
  [ "<!DOCTYPE html>";
    "<html lang='en'>";
    "<head>";
    "  <meta charset='UTF-8'>" ].

(** From the viewport tag to the page heading. *)
Definition head_rest : list string :=
  [ "  <meta name='viewport' content='width=device-width, initial-scale=1.0'>";
    "  <title>HeyGen Video Dashboard</title>";
    "  <style>";
    "    body { font-family: Arial, sans-serif; margin: 20px; background: #f9f9f9; }";
    "    h1 { color: #333; }";
    "    table { border-collapse: collapse; width: 100%; background: white; }";
    "    th, td { border: 1px solid #ccc; padding: 8px; text-align: left; }";
    "    th { background-color: #eee; }";
    "    tr:nth-child(even) { background-color: #f2f2f2; }";
    "    .status-completed { color: green; font-weight: bold; }";
    "    .status-processing { color: orange; font-weight: bold; }";
    "    .status-failed { color: red; font-weight: bold; }";
    "  </style>";
    "</head>";
    "<body>";
    "  <h1>HeyGen Video Dashboard</h1>" ].

Definition table_head : list string :=
  [ "  </ul>";
    "  <h2>Videos</h2>";
    "  <table>";
    "    <thead>";
    "      <tr>";
    "        <th>Title</th>";
    "        <th>Template</th>";
    "        <th>Voice</th>";
    "        <th>Status</th>";
    "        <th>Created At</th>";
    "        <th>Completed At</th>";
    "        <th>Duration</th>";
    "        <th>Thumbnail</th>";
    "        <th>Video Link</th>";
    "      </tr>";
    "    </thead>";
    "    <tbody>" ].

(** The seven list items of the usage summary, each subscripting
    [api_usage]. *)
Definition usage_items (api_usage : pyval) : result (list string) :=
  (total_videos <- py_getitem api_usage "total_videos" ;;
   completed_videos <- py_getitem api_usage "completed_videos" ;;
   processing_videos <- py_getitem api_usage "processing_videos" ;;
   failed_videos <- py_getitem api_usage "failed_videos" ;;
   monthly_quota <- py_getitem api_usage "monthly_quota" ;;
   remaining_quota <- py_getitem api_usage "remaining_quota" ;;
   usage_percentage <- py_getitem api_usage "usage_percentage" ;;
   Ok [ "    <li>Total Videos: " ++ esc total_videos ++ "</li>";
        "    <li>Completed Videos: " ++ esc completed_videos ++ "</li>";
        "    <li>Processing Videos: " ++ esc processing_videos ++ "</li>";
        "    <li>Failed Videos: " ++ esc failed_videos ++ "</li>";
        "    <li>Monthly Quota: " ++ esc monthly_quota ++ "</li>";
        "    <li>Remaining Quota: " ++ esc remaining_quota ++ "</li>";
        "    <li>Usage Percentage: " ++ esc usage_percentage ++ "%</li>" ])%res.

(** The elements between the page heading and the usage items. *)
Definition updated_lines (last_updated : pyval) : list string :=
  [ "  <p>Last Updated: " ++ esc last_updated ++ "</p>";
    "  <h2>API Usage Stats</h2>";
    "  <ul>" ].

(** What is appended after the loop. *)
Definition table_close : list string :=
  [ "    </tbody>"; "  </table>"; html_template_content ].

Definition generate_dashboard_html (g : globals) (dashboard_data : pyval)
  : result string :=
  (api_usage <- py_getitem dashboard_data "api_usage" ;;
   videos <- py_getitem dashboard_data "videos" ;;
   last_updated <- py_getitem dashboard_data "last_updated" ;;
   let refresh_seconds := refresh_interval_seconds g in
   items <- usage_items api_usage ;;
   let html_parts :=
     List.app head_open
       (meta_refresh refresh_seconds
        :: List.app head_rest
             (List.app (updated_lines last_updated)
                (List.app items table_head))) in
   vs <- py_iter videos ;;
   rows <- mapM video_row vs ;;
   let html_parts := List.app html_parts (List.app (List.concat rows) table_close) in
   Ok (String.concat lf html_parts))%res.


(** ** [refresh_dashboard_periodically] *)

(** What one pass of the loop meets outside the process: the reply to its
    HTTP request, and [datetime.utcnow()] already formatted by
    [strftime("%Y-%m-%d %H:%M:%S UTC")]. *)
Record cycle_env : Type := {
  net : http_reply;
  utcnow : string
}.

Definition dashboard_data_of (videos : list pyval) (api_usage : pyval)
    (last_updated : string) : pyval :=
  PDict
    [ ("videos", PList videos);
      ("api_usage", api_usage);
      ("last_updated", PStr last_updated) ].

(** Steps 2 and 3 of the loop body, from the value [fetch_videos]
    returned to [new_html]. *)
Definition build_page (g : globals) (api_videos : pyval) (last_updated : string)
  : result string :=
  (videos <- transform_video_data api_videos ;;
   api_usage <- compute_api_usage_stats videos ;;
   generate_dashboard_html g (dashboard_data_of videos api_usage last_updated))%res.

(** The [try] block of the loop body: steps 1 to 4 and the success line. *)
Definition refresh_try (env : cycle_env) : io unit :=
  (api_videos <- fetch_videos (net env) ;;
   videos <- lift (transform_video_data api_videos) ;;
   api_usage <- lift (compute_api_usage_stats videos) ;;
   let last_updated := utcnow env in
   let dashboard_data := dashboard_data_of videos api_usage last_updated in
   g <- read_globals ;;
   new_html <- lift (generate_dashboard_html g dashboard_data) ;;
   assign_dashboard_html new_html ;;;
   emit (Print DashboardRefreshed))%io.

(** [time.sleep(refresh_interval_seconds)] *)
Definition sleep_interval : io unit :=
  (g <- read_globals ;;
   emit (Sleep (refresh_interval_seconds g)))%io.

(** One pass of the body of [while True]. *)
Definition refresh_cycle (env : cycle_env) : io unit :=
  (try_except (refresh_try env)
     (fun e => emit (Print (ErrorDuringRefresh e))) ;;;
   sleep_interval)%io.

(** The loop never ends; its first [length envs] passes, one per element
    of [envs]. *)
Fixpoint refresh_dashboard_periodically (envs : list cycle_env) : io unit :=
  match envs with
  | [] => ret tt
  | env :: rest =>
      (refresh_cycle env ;;; refresh_dashboard_periodically rest)%io
  end.

(** The globals after a statement, and the events it caused. *)
Definition globals_after {A : Type} (m : io A) (g : globals) : globals :=
  fst (fst (m g)).

Definition events_of {A : Type} (m : io A) (g : globals) : list event :=
  snd (fst (m g)).

Definition outcome_of {A : Type} (m : io A) (g : globals) : result A :=
  snd (m g).

(** The events of a pass: the request, what was printed, the sleep. *)
Definition pass_events (g : globals) (msgs : list message) : list event :=
  HttpGet list_videos_url :: (map Print msgs ++ [Sleep (refresh_interval_seconds g)])%list.

(** A pass published when its [try] block ran to its end. *)
Definition cycle_published (env : cycle_env) (g : globals) : bool :=
  is_ok (outcome_of (refresh_try env) g).

(** How many of the passes over [envs] published. *)
Fixpoint published_passes (envs : list cycle_env) (g : globals) : nat :=
  match envs with
  | [] => 0%nat
  | env :: rest =>
      ((if cycle_published env g then 1 else 0)
       + published_passes rest (globals_after (refresh_cycle env) g))%nat
  end.

(** The fetch of a pass failed when [fetch_videos] took its [except]
    branch. *)
Definition fetch_failed (reply : http_reply) : bool :=
  match reply with
  | NoResponse => true
  | Response status_code json =>
      negb (is_ok (raise_for_status (status_code, json)))
      || negb (is_ok (response_json (status_code, json)))
  end.

(** ** [DashboardRequestHandler.do_GET] *)

(** What a call of the handler sent, the status line, the headers of its
    [send_header] calls and the bytes it wrote to [wfile], and the
    exception it raised, if any. *)
Record http_response : Type := {
  status : Z;
  headers : list (string * string);
  body : string;
  raised : option exn
}.

Definition loading_placeholder : string :=
  "<html><body><h1>Loading dashboard...</h1></body></html>".

(** [dashboard_html or "<html>...Loading dashboard...</html>"] *)
Definition current_content (g : globals) : string :=
  if py_truthy (PStr (dashboard_html g)) then dashboard_html g
  else loading_placeholder.

(** The status and the header are sent before [content.encode("utf-8")]
    is evaluated; when it raises, nothing is written. *)
Definition do_GET (path : string) (g : globals) : http_response :=
  if String.eqb path "/" || String.eqb path "/index.html" then
    let content := current_content g in
    match encode_utf8 content with
    | Ok bytes =>
        {| status := 200;
           headers := [("Content-type", "text/html; charset=utf-8")];
           body := bytes;
           raised := None |}
    | Raise e =>
        {| status := 200;
           headers := [("Content-type", "text/html; charset=utf-8")];
           body := EmptyString;
           raised := Some e |}
    end
  else
    {| status := 404;
       headers := [("Content-type", "text/plain; charset=utf-8")];
       body := "404 Not Found";
       raised := None |}.

(** ** [__main__] *)

Definition please_wait_placeholder : string :=
  "<html><body><h1>Loading dashboard data, please wait...</h1></body></html>".

(** The globals once the main block has stored its initial page, before
    the refresher thread starts. *)
Definition main_globals : globals :=
  set_dashboard_html please_wait_placeholder module_globals.

(** ** The refresher and the handlers as threads around the lock *)

(** Where a thread stands.  The refresher builds each [new_html] outside
    the [with] block; [artifacts] are the pages of its coming publishes.
    A handler serves a root path. *)
Inductive thread : Type :=
| RefresherReady (artifacts : list string)
| RefresherLocked (new_html : string) (artifacts : list string)
| RefresherStored (artifacts : list string)
| HandlerReady
| HandlerLocked
| HandlerRead (content : string)
| HandlerSent (content : string).

Record system : Type := {
  lock_held : bool;
  shared : globals;
  threads : list thread
}.

(** The next statement of a thread: entering [with dashboard_html_lock]
    when the lock is free, the statement inside the block, leaving the
    block.  [None] when the thread waits for the lock or has finished. *)
Definition thread_step (t : thread) (locked : bool) (g : globals)
  : option (thread * bool * globals) :=
  match t with
  | RefresherReady [] => None
  | RefresherReady (new_html :: rest) =>
      if locked then None else Some (RefresherLocked new_html rest, true, g)
  | RefresherLocked new_html rest =>
      Some (RefresherStored rest, locked, set_dashboard_html new_html g)
  | RefresherStored rest => Some (RefresherReady rest, false, g)
  | HandlerReady =>
      if locked then None else Some (HandlerLocked, true, g)
  | HandlerLocked => Some (HandlerRead (current_content g), locked, g)
  | HandlerRead content => Some (HandlerSent content, false, g)
  | HandlerSent _ => None
  end.

Fixpoint replace_nth {A : Type} (i : nat) (x : A) (l : list A) {struct l}
  : list A :=
  match l, i with
  | [], _ => []
  | _ :: rest, O => x :: rest
  | y :: rest, S j => y :: replace_nth j x rest
  end.

(** The scheduler picks thread [i]; a thread that cannot move leaves the
    system as it is. *)
Definition system_step (i : nat) (s : system) : system :=
  match nth_error (threads s) i with
  | None => s
  | Some t =>
      match thread_step t (lock_held s) (shared s) with
      | None => s
      | Some (t', locked, g) =>
          {| lock_held := locked;
             shared := g;
             threads := replace_nth i t' (threads s) |}
      end
  end.

(** An interleaving is the list of the scheduler's picks. *)
Definition run_schedule (schedule : list nat) (s : system) : system :=
  fold_left (fun s i => system_step i s) schedule s.

(** What a handler has read, once it has. *)
Definition content_read (t : thread) : option string :=
  match t with
  | HandlerRead content | HandlerSent content => Some content
  | _ => None
  end.

(** The pages a thread is still to publish. *)
Definition artifacts_of (t : thread) : list string :=
  match t with
  | RefresherReady artifacts | RefresherStored artifacts => artifacts
  | RefresherLocked new_html artifacts => new_html :: artifacts
  | _ => []
  end.

Definition holds_lock (t : thread) : bool :=
  match t with
  | RefresherLocked _ _ | RefresherStored _ | HandlerLocked | HandlerRead _ => true
  | _ => false
  end.

Definition start_system (g : globals) (ts : list thread) : system :=
  {| lock_held := false; shared := g; threads := ts |}.

(** The process as the main block starts it: the one refresher thread,
    and a handler thread per request, none of them started. *)
Definition boot (g : globals) (artifacts : list string) (handlers : nat) : system :=
  start_system g (RefresherReady artifacts :: repeat HandlerReady handlers).

(** What a read of the globals holding the whole page [h] gives. *)
Definition served (g : globals) (h : string) : string :=
  current_content (set_dashboard_html h g).

(** A page is whole when it is the initial one or one of the pages the
    refresher publishes. *)
Definition whole (g0 : globals) (artifacts : list string) (h : string) : Prop :=
  h = dashboard_html g0 \/ In h artifacts.

(** A thread is sound when the pages it still has to publish are the
    refresher's, and what it has read was served from a whole page. *)
Definition thread_ok (g0 : globals) (artifacts : list string) (t : thread) : Prop :=
  (forall a, In a (artifacts_of t) -> In a artifacts)
  /\ (forall c, content_read t = Some c ->
      exists h, whole g0 artifacts h /\ c = served g0 h).

(** The lock is held exactly when one thread is inside its [with] block. *)
Definition lock_consistent (s : system) : Prop :=
  List.length (filter holds_lock (threads s))
  = (if lock_held s then 1 else 0)%nat.

Definition system_ok (g0 : globals) (artifacts : list string) (s : system) : Prop :=
  whole g0 artifacts (dashboard_html (shared s))
  /\ Forall (thread_ok g0 artifacts) (threads s).

End Connector.

Arguments fetch_videos : simpl never.
Arguments transform_video_data : simpl never.
Arguments compute_api_usage_stats : simpl never.
Arguments generate_dashboard_html : simpl never.
Arguments dashboard_data_of : simpl never.

(** ** Notions used to describe the connector's behaviour *)

Section Notions.
Context {R : Runtime}.

(** The keys of the dict [transform_video_data] builds, in its order. *)
Definition video_keys : list string :=
  [ "id"; "title"; "template_name"; "voice_name"; "status"; "created_at";
    "completed_at"; "thumbnail_url"; "video_url"; "duration" ].

(** An element of the API's list that the page can show: a dict whose
    [status] is absent or a str. *)
Definition renderable (v : pyval) : bool :=
  match v with
  | PDict d =>
      match lookup "status" d with
      | None | Some (PStr _) => true
      | Some _ => false
      end
  | _ => false
  end.

(** The value of [v.get(k, default)] on the dict [d]. *)
Definition get_default (d : list (string * pyval)) (k : string) (default : pyval)
  : pyval :=
  match lookup k d with
  | Some x => x
  | None => default
  end.

(** The characters [html.escape] rewrites other than the ampersand. *)
Definition markup_char (c : ascii) : bool :=
  Ascii.eqb c "<" || Ascii.eqb c ">" || Ascii.eqb c (ascii_of_nat 34)
  || Ascii.eqb c "'".

Definition special_char (c : ascii) : bool :=
  Ascii.eqb c "&" || markup_char c.

Fixpoint chars (s : string) : list ascii :=
  match s with
  | EmptyString => []
  | String c rest => c :: chars rest
  end.

(** What is not a list, a dict or a str cannot be iterated. *)
Definition not_iterable (v : pyval) : bool :=
  match v with
  | PNone | PBool _ | PInt _ | PFloat _ => true
  | _ => false
  end.

(** A thread with nothing left to do. *)
Definition thread_done (t : thread) : bool :=
  match t with
  | RefresherReady [] | HandlerSent _ => true
  | _ => false
  end.

(** A request handler thread, as opposed to the refresher. *)
Definition is_handler (t : thread) : bool :=
  match t with
  | HandlerReady | HandlerLocked | HandlerRead _ | HandlerSent _ => true
  | _ => false
  end.

(** The first thread is the refresher and the others are handlers; the
    pages already published and those to come make up [artifacts], and
    [dashboard_html] is the last one published. *)
Definition publishing_in_order (g0 : globals) (artifacts : list string)
    (s : system) : Prop :=
  exists t0 others done,
    threads s = t0 :: others
    /\ is_handler t0 = false
    /\ forallb is_handler others = true
    /\ artifacts = (done ++ artifacts_of t0)%list
    /\ dashboard_html (shared s) = last done (dashboard_html g0).

(** Thread [i] can take its next step. *)
Definition enabled (i : nat) (s : system) : bool :=
  match nth_error (threads s) i with
  | Some t =>
      match thread_step t (lock_held s) (shared s) with
      | Some _ => true
      | None => false
      end
  | None => false
  end.

End Notions.

(** ** [heygen_proxy_test_runner.py]

    [run_all_tests] and [print_test_result] come from the module
    [test_functions], which is not among the sources; the script is
    modelled over any two such functions. *)

Section Runner.
Context {R : Runtime}.
Variable run_all_tests : string -> string -> result pyval.
Variable print_test_result : pyval -> result unit.

Inductive runner_event : Type :=
| RunnerPrint (msg : string)
| RunAllTests (proxy_url proxy_api_key : string)
| PrintTestResult (test_results : pyval).

(** How the script ends: [sys.exit(code)], or an exception nobody
    catches. *)
Inductive ending : Type :=
| Exit (code : Z)
| Uncaught (e : exn).

(** The exit status of the process; the interpreter ends with 1 on an
    uncaught exception. *)
Definition exit_status (e : ending) : Z :=
  match e with
  | Exit code => code
  | Uncaught _ => 1%Z
  end.

(** [os.getenv(name)]: [None] when the variable is not set. *)
Definition getenv_value (x : option string) : pyval :=
  match x with
  | Some s => PStr s
  | None => PNone
  end.

Definition missing_message : string :=
  "Missing required environment variables: PROXY_URL and/or PROXY_API_KEY".

(** The script, from the two environment variables. *)
Definition test_runner (PROXY_URL PROXY_API_KEY : option string)
  : list runner_event * ending :=
  if negb (py_truthy (getenv_value PROXY_URL))
     || negb (py_truthy (getenv_value PROXY_API_KEY))
  then ([RunnerPrint missing_message], Exit 1)
  else
    match PROXY_URL, PROXY_API_KEY with
    | Some url, Some key =>
        match run_all_tests url key with
        | Raise e => ([RunAllTests url key], Uncaught e)
        | Ok test_results =>
            match print_test_result test_results with
            | Raise e =>
                ([RunAllTests url key; PrintTestResult test_results], Uncaught e)
            | Ok _ =>
                match py_getitem test_results "success" with
                | Raise e =>
                    ([RunAllTests url key; PrintTestResult test_results],
                     Uncaught e)
                | Ok success =>
                    let exit_code := if py_truthy success then 0%Z else 1%Z in
                    ([RunAllTests url key; PrintTestResult test_results],
                     Exit exit_code)
                end
            end
        end
    | _, _ => ([RunnerPrint missing_message], Exit 1)
    end.

End Runner.

(** ** A runtime to run the definitions on examples

    Floats are stood in for by exact thousandths, [lower] and [repr] are
    the ASCII ones.  The theorems below hold for every [Runtime]; this one
    only serves to evaluate the connector on concrete inputs. *)

Module Plain.

Definition lower_char (c : ascii) : ascii :=
  let n := nat_of_ascii c in
  if Nat.leb 65 n && Nat.leb n 90 then ascii_of_nat (n + 32) else c.

Fixpoint lower (s : string) : string :=
  match s with
  | EmptyString => EmptyString
  | String c rest => String (lower_char c) (lower rest)
  end.

Definition quote (s : string) : string := "'" ++ s ++ "'".

(** A number of thousandths, printed with one to three decimals. *)
Definition thousandths_repr (h : Z) : string :=
  let units := (h / 1000)%Z in
  let d1 := (h mod 1000 / 100)%Z in
  let d2 := (h mod 100 / 10)%Z in
  let d3 := (h mod 10)%Z in
  Py.int_str units ++ "." ++ Py.int_str d1
  ++ (if (d3 =? 0)%Z
      then (if (d2 =? 0)%Z then EmptyString else Py.int_str d2)
      else Py.int_str d2 ++ Py.int_str d3).

(** To the nearest multiple of [10 ^ (3 - ndigits)] thousandths. *)
Definition thousandths_round (h ndigits : Z) : Z :=
  let unit := (10 ^ (3 - ndigits))%Z in
  ((2 * h + unit) / (2 * unit) * unit)%Z.

#[export] Instance runtime : Runtime := {|
  pyfloat := Z;
  float_repr := thousandths_repr;
  float_bool := fun h => negb (h =? 0)%Z;
  int_truediv := fun a b => (1000 * a / b)%Z;
  float_mul_int := fun h n => (h * n)%Z;
  float_round := thousandths_round;
  float_zero := 0%Z;
  str_repr := quote;
  str_lower := lower
|}.

End Plain.

(** ** Inputs for the examples *)

Module Examples.
Import Plain.

Definition video : pyval :=
  PDict
    [ ("id", PInt 7);
      ("title", PStr "Intro <1>");
      ("status", PStr "Completed");
      ("video_url", PStr "https://cdn.example/v/7?a=1&b=2") ].

(** The API answers 200 with one video under [videos]. *)
Definition good_env : cycle_env :=
  {| net := Response 200 (Some (PDict [("videos", PList [video])]));
     utcnow := "2024-01-01 00:00:00 UTC" |}.

(** The request raises. *)
Definition down_env : cycle_env :=
  {| net := NoResponse; utcnow := "2024-01-01 00:05:00 UTC" |}.

(** The API answers 200 with a video whose status is null. *)
Definition null_status_videos : pyval :=
  PList [PDict [("id", PInt 8); ("status", PNone)]].

Definition null_status_env : cycle_env :=
  {| net := Response 200 (Some null_status_videos);
     utcnow := "2024-01-01 00:10:00 UTC" |}.

(** A 300 answer, neither followed nor an error for
    [raise_for_status], whose body is a list of videos. *)
Definition multiple_choices : http_reply := Response 300 (Some (PList [video])).

(** A 503 answer whose body is a list of videos all the same. *)
Definition unavailable : http_reply := Response 503 (Some (PList [video])).

(** The globals after the pass over [good_env] from the main block's. *)
Definition after_good : globals :=
  Eval vm_compute in globals_after (refresh_cycle good_env) main_globals.

Definition mixed_videos : list pyval :=
  [ PDict [("status", PStr "completed")];
    PDict [("status", PStr "processing")];
    PDict [("status", PStr "queued")];
    PDict [("title", PStr "no status")];
    PDict [("status", PStr "failed")];
    PDict [("status", PStr "completed")] ].

Definition empty_data : pyval :=
  dashboard_data_of []
    (PDict
       [ ("total_videos", PInt 0);
         ("completed_videos", PInt 0);
         ("processing_videos", PInt 0);
         ("failed_videos", PInt 0);
         ("monthly_quota", PInt 1000);
         ("remaining_quota", PInt 1000);
         ("usage_percentage", PFloat 0%Z) ])
    "2024-01-01 00:00:00 UTC".

Definition empty_page : string :=
  Eval vm_compute in
    match generate_dashboard_html main_globals empty_data with
    | Ok page => page
    | Raise _ => EmptyString
    end.

(** Handler 1 reads before the first publish, handler 2 after it; the
    picks of a thread waiting for the lock are lost. *)
Definition two_pages : list string := ["<html>one</html>"; "<html>two</html>"].

Definition schedule : list nat :=
  [1; 0; 1; 1; 0; 2; 0; 0; 2; 2; 2]%nat.

End Examples.

Module MoreExamples.
Import Plain Examples.

(** What [transform_video_data] makes of [video]. *)
Definition normal_video : pyval :=
  PDict
    [ ("id", PStr "7");
      ("title", PStr "Intro <1>");
      ("template_name", PStr "Unknown Template");
      ("voice_name", PStr "Unknown Voice");
      ("status", PStr "Completed");
      ("created_at", PStr EmptyString);
      ("completed_at", PNone);
      ("thumbnail_url", PNone);
      ("video_url", PStr "https://cdn.example/v/7?a=1&b=2");
      ("duration", PNone) ].

(** The API answers 200 with [videos] set to null. *)
Definition null_videos_env : cycle_env :=
  {| net := Response 200 (Some (PDict [("videos", PNone)]));
     utcnow := "2024-01-01 00:15:00 UTC" |}.

(** The refresher alone runs to its end: twice enter, store, leave. *)
Definition refresher_only : list nat := [0; 0; 0; 0; 0; 0]%nat.

(** A test module whose tests pass, and one whose tests fail. *)
Definition passing_tests (proxy_url proxy_api_key : string) : result pyval :=
  Ok (PDict [("success", PBool true); ("passed", PInt 3)]).

Definition quiet_print (test_results : pyval) : result unit := Ok tt.

End MoreExamples.

Module EncodingExamples.
Import Plain Examples.

(** U+D83D alone, as the JSON text "\ud83d" decodes. *)
Definition lone_surrogate : string :=
  String (ascii_of_nat 237)
    (String (ascii_of_nat 160) (String (ascii_of_nat 189) EmptyString)).

(** The API answers 200 with a video whose title holds it. *)
Definition surrogate_env : cycle_env :=
  {| net :=
       Response 200
         (Some (PList [PDict [("id", PInt 9); ("title", PStr lone_surrogate)]]));
     utcnow := "2024-01-01 00:20:00 UTC" |}.

(** The globals after the pass over [surrogate_env] from the main
    block's. *)
Definition after_surrogate : globals :=
  Eval vm_compute in globals_after (refresh_cycle surrogate_env) main_globals.

End EncodingExamples.

(** Evaluation on the example inputs, leaving the runtime folded. *)
Ltac run := lazy -[Plain.runtime]; reflexivity.

(** * Properties *)

Section Properties.
Context {R : Runtime}.

(** ** The fetch *)

(** [fetch_videos] always returns: it leaves the globals alone, sends one
    request, prints at most one line, and yields the empty list whenever
    its [except] branch ran. *)
Lemma fetch_videos_returns (reply : http_reply) (g : globals) :
  exists (v : pyval) (msgs : list message),
    fetch_videos reply g = (g, HttpGet list_videos_url :: map Print msgs, Ok v)
    /\ (fetch_failed reply = true ->
        v = PList [] /\ exists e, msgs = [ErrorFetchingVideos e])
    /\ (fetch_failed reply = false -> msgs = []).
Proof.
  destruct reply as [|status_code json].
  - exists (PList []), [ErrorFetchingVideos ConnectionError].
    repeat split; eauto; discriminate.
  - unfold fetch_videos, fetch_failed, raise_for_status, response_json; cbn.
    unfold try_except, iobind, requests_get, iobind, emit, lift, ret,
      raise_for_status, response_json; cbn.
    destruct ((400 <=? status_code)%Z && (status_code <? 600)%Z); cbn.
    + exists (PList []), [ErrorFetchingVideos (HTTPError status_code)].
      repeat split; eauto; discriminate.
    + destruct json as [data|]; cbn.
      * destruct data as [ | b | n | f | s | l | d ]; cbn;
          try (exists (PList []), []; repeat split; (discriminate || reflexivity)).
        -- exists (PList l), []. repeat split; (discriminate || reflexivity).
        -- unfold dict_mem. destruct (lookup "videos" d) as [x|] eqn:E; cbn.
           ++ exists x, []. repeat split; (discriminate || reflexivity).
           ++ exists (PList []), []. repeat split; (discriminate || reflexivity).
      * exists (PList []), [ErrorFetchingVideos JSONDecodeError].
        repeat split; eauto; discriminate.
Qed.

(** ** One pass of the loop *)

(** The [try] block, by the outcome of its steps 2 and 3. *)
Lemma refresh_try_cases (env : cycle_env) (g : globals)
    (api_videos : pyval) (msgs : list message) :
  fetch_videos (net env) g
    = (g, HttpGet list_videos_url :: map Print msgs, Ok api_videos) ->
  refresh_try env g =
    match build_page g api_videos (utcnow env) with
    | Ok new_html =>
        (set_dashboard_html new_html g,
         HttpGet list_videos_url :: map Print (msgs ++ [DashboardRefreshed]),
         Ok tt)
    | Raise e => (g, HttpGet list_videos_url :: map Print msgs, Raise e)
    end.
Proof.
  intros Hfetch.
  unfold refresh_try, build_page.
  unfold iobind at 1. rewrite Hfetch.
  unfold iobind, lift, read_globals, assign_dashboard_html, emit, bind.
  destruct (transform_video_data api_videos) as [videos|e]; cbn.
  - destruct (compute_api_usage_stats videos) as [api_usage|e]; cbn.
    + match goal with
      | |- context [generate_dashboard_html ?a ?b] =>
          destruct (generate_dashboard_html a b) as [new_html|e]
      end; cbn; rewrite ?map_app, ?app_nil_r; reflexivity.
    + rewrite ?app_nil_r; reflexivity.
  - rewrite ?app_nil_r; reflexivity.
Qed.

(** A pass, by the outcome of its steps 2 and 3. *)
Lemma refresh_cycle_cases (env : cycle_env) (g : globals)
    (api_videos : pyval) (msgs : list message) :
  fetch_videos (net env) g
    = (g, HttpGet list_videos_url :: map Print msgs, Ok api_videos) ->
  refresh_cycle env g =
    match build_page g api_videos (utcnow env) with
    | Ok new_html =>
        (set_dashboard_html new_html g,
         pass_events g (msgs ++ [DashboardRefreshed]), Ok tt)
    | Raise e =>
        (g, pass_events g (msgs ++ [ErrorDuringRefresh e]), Ok tt)
    end.
Proof.
  intros Hfetch.
  unfold refresh_cycle, pass_events, sleep_interval, try_except.
  unfold iobind at 1. rewrite (refresh_try_cases env g api_videos msgs Hfetch).
  unfold iobind, read_globals, emit.
  destruct (build_page g api_videos (utcnow env)) as [new_html|e]; cbn;
    rewrite ?map_app, ?app_nil_r, <- ?app_assoc; reflexivity.
Qed.

(** A pass never raises and never changes the configured interval. *)
Lemma refresh_cycle_returns (env : cycle_env) (g : globals) :
  exists (g' : globals) (msgs : list message),
    refresh_cycle env g = (g', pass_events g msgs, Ok tt)
    /\ refresh_interval_seconds g' = refresh_interval_seconds g.
Proof.
  destruct (fetch_videos_returns (net env) g) as (v & msgs & Hfetch & _).
  rewrite (refresh_cycle_cases env g v msgs Hfetch).
  destruct (build_page g v (utcnow env)); eauto.
Qed.

(** The first pass, then the others from the globals it left. *)
Lemma loop_cons (env : cycle_env) (rest : list cycle_env) (g : globals) :
  globals_after (refresh_dashboard_periodically (env :: rest)) g
    = globals_after (refresh_dashboard_periodically rest)
        (globals_after (refresh_cycle env) g)
  /\ events_of (refresh_dashboard_periodically (env :: rest)) g
    = (events_of (refresh_cycle env) g
       ++ events_of (refresh_dashboard_periodically rest)
            (globals_after (refresh_cycle env) g))%list
  /\ outcome_of (refresh_dashboard_periodically (env :: rest)) g
    = outcome_of (refresh_dashboard_periodically rest)
        (globals_after (refresh_cycle env) g).
Proof.
  destruct (refresh_cycle_returns env g) as (g' & msgs & Hc & _).
  unfold globals_after, events_of, outcome_of; cbn [refresh_dashboard_periodically].
  unfold iobind. rewrite Hc. cbn [fst snd].
  destruct (refresh_dashboard_periodically rest g') as [[g2 t2] r2].
  cbn. auto.
Qed.

(** What [fetch_videos] returned determines the pass. *)
Lemma refresh_cycle_after_fetch (env : cycle_env) (g : globals) (api_videos : pyval) :
  outcome_of (fetch_videos (net env)) g = Ok api_videos ->
  exists msgs : list message,
    fetch_videos (net env) g
      = (g, HttpGet list_videos_url :: map Print msgs, Ok api_videos).
Proof.
  intros Hout.
  destruct (fetch_videos_returns (net env) g) as (v & msgs & Hfetch & _).
  unfold outcome_of in Hout. rewrite Hfetch in Hout. cbn in Hout.
  injection Hout as ->. eauto.
Qed.

(** Steps 2 and 3 raise exactly when one of the three calls does. *)
Lemma build_page_raises (g : globals) (api_videos : pyval) (ts : string) (e : exn) :
  build_page g api_videos ts = Raise e <->
  (transform_video_data api_videos = Raise e
   \/ (exists videos,
         transform_video_data api_videos = Ok videos
         /\ compute_api_usage_stats videos = Raise e)
   \/ (exists videos api_usage,
         transform_video_data api_videos = Ok videos
         /\ compute_api_usage_stats videos = Ok api_usage
         /\ generate_dashboard_html g (dashboard_data_of videos api_usage ts)
            = Raise e)).
Proof.
  unfold build_page, bind.
  destruct (transform_video_data api_videos) as [videos|e1].
  - destruct (compute_api_usage_stats videos) as [api_usage|e2] eqn:Ec.
    + split.
      * intros H. right; right. exists videos, api_usage. auto.
      * intros [H | [(v & Hv & H) | (v & a & Hv & Ha & H)]];
          [discriminate | congruence | ].
        injection Hv as <-. rewrite Ec in Ha. injection Ha as <-. exact H.
    + split.
      * intros H. right; left. exists videos. split; congruence.
      * intros [H | [(v & Hv & H) | (v & a & Hv & H & _)]];
          [discriminate | congruence | congruence].
  - split.
    + intros H. left. congruence.
    + intros [H | [(v & H & _) | (v & a & H & _)]]; congruence.
Qed.

(** ** C3 *)

(** C3. Atomicity on transform or render failure: when
    [transform_video_data], [compute_api_usage_stats] or
    [generate_dashboard_html] raises in a pass, the pass leaves the
    globals, hence [dashboard_html], as they were, prints the error,
    sleeps, and raises nothing, so that the loop goes on with its next
    pass from the same globals. *)
Theorem C3_failed_render_keeps_cache
    (env : cycle_env) (g : globals) (api_videos : pyval) (e : exn) :
  outcome_of (fetch_videos (net env)) g = Ok api_videos ->
  (transform_video_data api_videos = Raise e
   \/ (exists videos,
         transform_video_data api_videos = Ok videos
         /\ compute_api_usage_stats videos = Raise e)
   \/ (exists videos api_usage,
         transform_video_data api_videos = Ok videos
         /\ compute_api_usage_stats videos = Ok api_usage
         /\ generate_dashboard_html g
              (dashboard_data_of videos api_usage (utcnow env)) = Raise e)) ->
  globals_after (refresh_cycle env) g = g
  /\ outcome_of (refresh_cycle env) g = Ok tt
  /\ (exists msgs,
        events_of (refresh_cycle env) g
          = pass_events g (msgs ++ [ErrorDuringRefresh e]))
  /\ (forall rest : list cycle_env,
        globals_after (refresh_dashboard_periodically (env :: rest)) g
          = globals_after (refresh_dashboard_periodically rest) g
        /\ events_of (refresh_dashboard_periodically (env :: rest)) g
          = (events_of (refresh_cycle env) g
             ++ events_of (refresh_dashboard_periodically rest) g)%list).
Proof.
  intros Hout Hraise.
  apply build_page_raises in Hraise.
  destruct (refresh_cycle_after_fetch env g api_videos Hout) as (msgs & Hfetch).
  pose proof (refresh_cycle_cases env g api_videos msgs Hfetch) as Hc.
  rewrite Hraise in Hc.
  assert (Hg : globals_after (refresh_cycle env) g = g)
    by (unfold globals_after; rewrite Hc; reflexivity).
  repeat split.
  - exact Hg.
  - unfold outcome_of; rewrite Hc; reflexivity.
  - exists msgs. unfold events_of; rewrite Hc; reflexivity.
  - destruct (loop_cons env rest g) as (H & _). rewrite H, Hg. reflexivity.
  - destruct (loop_cons env rest g) as (_ & H & _). rewrite H, Hg. reflexivity.
Qed.

(** ** C1 *)

(** The page of an empty video list is always rendered. *)
Lemma build_page_empty (g : globals) (ts : string) :
  exists api_usage page,
    compute_api_usage_stats [] = Ok api_usage
    /\ generate_dashboard_html g (dashboard_data_of [] api_usage ts) = Ok page
    /\ build_page g (PList []) ts = Ok page.
Proof.
  unfold build_page, transform_video_data, compute_api_usage_stats,
    generate_dashboard_html, dashboard_data_of.
  cbn. eexists. eexists. repeat split; reflexivity.
Qed.

(** C1, as the code has it.  When the fetch of a pass fails,
    [fetch_videos] prints the error and returns the empty list; the pass
    then renders the page of zero videos with its own timestamp and stores
    it in [dashboard_html], in place of the page stored before. *)
Theorem C1_failed_fetch_publishes_empty_page (env : cycle_env) (g : globals) :
  fetch_failed (net env) = true ->
  exists (api_usage : pyval) (page : string) (e : exn),
    compute_api_usage_stats [] = Ok api_usage
    /\ generate_dashboard_html g (dashboard_data_of [] api_usage (utcnow env))
       = Ok page
    /\ globals_after (refresh_cycle env) g = set_dashboard_html page g
    /\ events_of (refresh_cycle env) g
       = pass_events g [ErrorFetchingVideos e; DashboardRefreshed]
    /\ outcome_of (refresh_cycle env) g = Ok tt.
Proof.
  intros Hfail.
  destruct (fetch_videos_returns (net env) g) as (v & msgs & Hfetch & Hf & _).
  destruct (Hf Hfail) as (-> & e & ->).
  destruct (build_page_empty g (utcnow env)) as (api_usage & page & Hs & Hp & Hb).
  pose proof (refresh_cycle_cases env g (PList []) _ Hfetch) as Hc.
  rewrite Hb in Hc.
  exists api_usage, page, e.
  unfold globals_after, events_of, outcome_of. rewrite Hc.
  repeat split; assumption.
Qed.

(** ** C6 *)

Lemma pass_events_interval (g g' : globals) (msgs : list message) :
  refresh_interval_seconds g' = refresh_interval_seconds g ->
  pass_events g' msgs = pass_events g msgs.
Proof. unfold pass_events. intros ->. reflexivity. Qed.

(** The events of the first passes, pass by pass. *)
Lemma loop_events (envs : list cycle_env) (g : globals) :
  exists logs : list (list message),
    List.length logs = List.length envs
    /\ events_of (refresh_dashboard_periodically envs) g
       = flat_map (pass_events g) logs
    /\ refresh_interval_seconds
         (globals_after (refresh_dashboard_periodically envs) g)
       = refresh_interval_seconds g.
Proof.
  revert g. induction envs as [|env rest IH]; intros g.
  - exists []. repeat split.
  - destruct (loop_cons env rest g) as (Hg & Hev & _).
    destruct (refresh_cycle_returns env g) as (g' & msgs & Hc & Hi).
    assert (Hg' : globals_after (refresh_cycle env) g = g')
      by (unfold globals_after; rewrite Hc; reflexivity).
    assert (He' : events_of (refresh_cycle env) g = pass_events g msgs)
      by (unfold events_of; rewrite Hc; reflexivity).
    rewrite Hg' in Hg, Hev. rewrite He' in Hev.
    destruct (IH g') as (logs & Hlen & Hevs & Hint).
    exists (msgs :: logs). repeat split.
    + cbn. now rewrite Hlen.
    + rewrite Hev, Hevs. cbn [flat_map]. f_equal.
      apply flat_map_ext. intros l. now apply pass_events_interval.
    + rewrite Hg, Hint. exact Hi.
Qed.

(** C6. Cycle cadence without retry inside a pass: the configured
    interval is 300 seconds as the module is loaded; the events of any
    number of passes are, pass after pass, one request to the videos
    endpoint, the lines printed, and one sleep of the whole configured
    interval, whether the pass published or not. *)
Theorem C6_one_fetch_then_full_sleep (envs : list cycle_env) (g : globals) :
  refresh_interval_seconds module_globals = 300%Z
  /\ exists logs : list (list message),
       List.length logs = List.length envs
       /\ events_of (refresh_dashboard_periodically envs) g
          = flat_map
              (fun msgs =>
                 HttpGet list_videos_url
                 :: (map Print msgs ++ [Sleep (refresh_interval_seconds g)])%list)
              logs.
Proof.
  split; [reflexivity|].
  destruct (loop_events envs g) as (logs & Hlen & Hev & _).
  exists logs. split; [exact Hlen|exact Hev].
Qed.

(** ** C4 and C5 *)


(** [dashboard_html or placeholder], spelled out. *)
Lemma current_content_cases (g : globals) :
  current_content g
  = if String.eqb (dashboard_html g) EmptyString
    then loading_placeholder
    else dashboard_html g.
Proof.
  unfold current_content. cbn [py_truthy].
  destruct (String.eqb (dashboard_html g) EmptyString); reflexivity.
Qed.

Lemma root_path_response (g : globals) (path : string) :
  path = "/" \/ path = "/index.html" ->
  do_GET path g =
    match encode_utf8 (current_content g) with
    | Ok bytes =>
        {| status := 200;
           headers := [("Content-type", "text/html; charset=utf-8")];
           body := bytes;
           raised := None |}
    | Raise e =>
        {| status := 200;
           headers := [("Content-type", "text/html; charset=utf-8")];
           body := EmptyString;
           raised := Some e |}
    end.
Proof. intros [-> | ->]; reflexivity. Qed.


(** A pass that did not publish left the globals as they were. *)
Lemma unpublished_pass_keeps_globals (env : cycle_env) (g : globals) :
  cycle_published env g = false ->
  globals_after (refresh_cycle env) g = g.
Proof.
  unfold cycle_published, outcome_of, globals_after.
  destruct (fetch_videos_returns (net env) g) as (v & msgs & Hfetch & _).
  rewrite (refresh_try_cases env g v msgs Hfetch).
  rewrite (refresh_cycle_cases env g v msgs Hfetch).
  destruct (build_page g v (utcnow env)); cbn; [discriminate|reflexivity].
Qed.

Lemma unpublished_passes_keep_globals (envs : list cycle_env) (g : globals) :
  published_passes envs g = 0%nat ->
  globals_after (refresh_dashboard_periodically envs) g = g.
Proof.
  revert g. induction envs as [|env rest IH]; intros g H.
  - reflexivity.
  - cbn [published_passes] in H.
    destruct (cycle_published env g) eqn:Hp; [discriminate|].
    destruct (loop_cons env rest g) as (Hg & _).
    rewrite Hg. rewrite (unpublished_pass_keeps_globals env g Hp) in *.
    apply IH. exact H.
Qed.

(** A pass whose fetch failed runs its [try] block to the end. *)
Lemma failed_fetch_publishes (env : cycle_env) (g : globals) :
  fetch_failed (net env) = true -> cycle_published env g = true.
Proof.
  intros Hfail.
  destruct (fetch_videos_returns (net env) g) as (v & msgs & Hfetch & Hf & _).
  destruct (Hf Hfail) as (-> & e & ->).
  destruct (build_page_empty g (utcnow env)) as (api_usage & page & _ & _ & Hb).
  unfold cycle_published, outcome_of.
  rewrite (refresh_try_cases env g (PList []) _ Hfetch), Hb. reflexivity.
Qed.

(** C5, as the code has it.  Initial state: as long as no pass has run
    its [try] block to the end, at the start and after any number of
    passes that raised in the transformation or the rendering, a GET of a
    root path is answered 200 with a fixed placeholder and raises
    nothing: the page stored by the main block when the process was
    started by it, the fallback of [do_GET] from the module as loaded;
    neither is empty.  A pass whose fetch failed is not among these: it
    runs its [try] block to the end. *)
Theorem C5_placeholder_before_first_publish
    (envs : list cycle_env) (path : string) :
  path = "/" \/ path = "/index.html" ->
  (published_passes envs main_globals = 0%nat ->
   do_GET path (globals_after (refresh_dashboard_periodically envs) main_globals)
   = {| status := 200;
        headers := [("Content-type", "text/html; charset=utf-8")];
        body := please_wait_placeholder;
        raised := None |})
  /\ (published_passes envs module_globals = 0%nat ->
      do_GET path
        (globals_after (refresh_dashboard_periodically envs) module_globals)
      = {| status := 200;
           headers := [("Content-type", "text/html; charset=utf-8")];
           body := loading_placeholder;
           raised := None |})
  /\ please_wait_placeholder <> EmptyString
  /\ loading_placeholder <> EmptyString
  /\ (forall env g, fetch_failed (net env) = true -> cycle_published env g = true).
Proof.
  intros Hpath. split; [|split; [|split; [|split]]].
  - intros Hnone.
    rewrite (unpublished_passes_keep_globals envs main_globals Hnone).
    rewrite (root_path_response main_globals path Hpath). reflexivity.
  - intros Hnone.
    rewrite (unpublished_passes_keep_globals envs module_globals Hnone).
    rewrite (root_path_response module_globals path Hpath). reflexivity.
  - discriminate.
  - discriminate.
  - apply failed_fetch_publishes.
Qed.

(** ** C7 *)

(** C7, as the code has it.  [fetch_videos] never raises.  It returns the
    empty list when the request raises, when the status is a client or
    server error (400 to 599), when the body does not decode, and when the
    decoded body is neither a list nor a dict with the key [videos]; which
    is also what it returns for a decoded empty list. *)
Theorem C7_fetch_videos_never_raises (reply : http_reply) (g : globals) :
  (exists v, outcome_of (fetch_videos reply) g = Ok v)
  /\ (reply = NoResponse
      \/ (exists status_code json,
            reply = Response status_code json
            /\ ((400 <= status_code < 600)%Z \/ json = None)) ->
      outcome_of (fetch_videos reply) g = Ok (PList []))
  /\ (forall status_code data,
        reply = Response status_code (Some data) ->
        is_list data = false ->
        (forall d, data = PDict d -> dict_mem "videos" d = false) ->
        outcome_of (fetch_videos reply) g = Ok (PList []))
  /\ outcome_of (fetch_videos (Response 200 (Some (PList [])))) g
     = Ok (PList []).
Proof.
  destruct (fetch_videos_returns reply g) as (v & msgs & Hfetch & Hfail & _).
  unfold outcome_of. rewrite Hfetch. cbn [snd].
  split; [eauto|]. split; [|split].
  - intros Hcase. destruct Hfail as (-> & _); [|reflexivity].
    destruct Hcase as [-> | (status_code & json & -> & [Hs | ->])].
    + reflexivity.
    + unfold fetch_failed, raise_for_status; cbn.
      replace ((400 <=? status_code)%Z && (status_code <? 600)%Z) with true
        by (symmetry; apply andb_true_iff; split;
            [apply Z.leb_le|apply Z.ltb_lt]; lia).
      reflexivity.
    + unfold fetch_failed, response_json; cbn. apply orb_true_r.
  - intros status_code data -> Hl Hd.
    revert Hfetch. unfold fetch_videos; cbn.
    unfold try_except, iobind, requests_get, iobind, emit, lift, ret,
      raise_for_status, response_json; cbn.
    destruct ((400 <=? status_code)%Z && (status_code <? 600)%Z); cbn.
    + congruence.
    + destruct data as [ | b | n | f | s | l | d ]; cbn; try congruence.
      * discriminate Hl.
      * rewrite (Hd d eq_refl). cbn. congruence.
  - reflexivity.
Qed.

(** ** C8 and C9 *)

(** C8. Renderer determinism: two calls of [generate_dashboard_html] on
    the same dashboard data, under globals that agree on the configured
    refresh interval, have the same outcome, the same page or the same
    exception, whatever else differs between the two calls. *)
Theorem C8_renderer_deterministic (g1 g2 : globals) (dashboard_data : pyval) :
  refresh_interval_seconds g1 = refresh_interval_seconds g2 ->
  generate_dashboard_html g1 dashboard_data
    = generate_dashboard_html g2 dashboard_data.
Proof.
  intros Hi. unfold generate_dashboard_html. rewrite Hi. reflexivity.
Qed.

Lemma append_assoc (a b c : string) : (a ++ b) ++ c = a ++ (b ++ c).
Proof. induction a as [|x a IH]; cbn; [reflexivity|now rewrite IH]. Qed.

Lemma concat_cons (sep x : string) (l : list string) :
  l <> [] -> String.concat sep (x :: l) = x ++ sep ++ String.concat sep l.
Proof. destruct l; [congruence|reflexivity]. Qed.

(** Joining around an inner element. *)
Lemma concat_around (sep x : string) (a b : list string) :
  a <> [] -> b <> [] ->
  String.concat sep (a ++ x :: b)
    = String.concat sep a ++ sep ++ x ++ sep ++ String.concat sep b.
Proof.
  intros Ha Hb. induction a as [|y a IH]; [congruence|].
  destruct a as [|z a].
  - cbn [List.app]. rewrite concat_cons by discriminate.
    rewrite concat_cons by exact Hb. reflexivity.
  - change ((y :: z :: a) ++ x :: b)%list with (y :: ((z :: a) ++ x :: b))%list.
    rewrite concat_cons by discriminate.
    rewrite IH by discriminate.
    rewrite (concat_cons sep y (z :: a)) by discriminate.
    now rewrite !append_assoc.
Qed.

(** C9. Refresh hint in the artifact: every page the renderer produces
    has, as its fifth line, right after the four opening lines, a meta
    refresh tag whose content is the configured refresh interval in
    decimal; [do_GET] sends no header other than the content type. *)
Theorem C9_meta_refresh_in_artifact
    (g : globals) (dashboard_data : pyval) (page : string) :
  generate_dashboard_html g dashboard_data = Ok page ->
  (exists rest : string,
     page = String.concat lf head_open ++ lf
            ++ ("  <meta http-equiv='refresh' content='"
                ++ int_str (refresh_interval_seconds g) ++ "'>")
            ++ lf ++ rest)
  /\ (forall path g', map fst (headers (do_GET path g')) = ["Content-type"]).
Proof.
  intros Hgen. split.
  - unfold generate_dashboard_html in Hgen.
    repeat match type of Hgen with
           | bind ?m _ = Ok _ =>
               destruct m; cbn [bind] in Hgen; [|discriminate Hgen]
           end.
    match type of Hgen with
    | Ok ?x = Ok _ => assert (Hp : x = page) by congruence
    end.
    clear Hgen. subst page.
    rewrite <- List.app_assoc, <- List.app_comm_cons.
    rewrite concat_around; [|discriminate|unfold head_rest; discriminate].
    eexists. reflexivity.
  - intros path g'. unfold do_GET.
    destruct (String.eqb path "/" || String.eqb path "/index.html");
      [destruct (encode_utf8 (current_content g'))|]; reflexivity.
Qed.

(** ** C10 *)

(** A value equals at most one of the three status words. *)
Lemma one_status (st : pyval) :
  ((if py_eq_str st "completed" then 1 else 0)
   + (if py_eq_str st "processing" then 1 else 0)
   + (if py_eq_str st "failed" then 1 else 0) <= 1)%Z.
Proof.
  destruct st as [ | b | n | f | s | l | d ]; cbn; try lia.
  destruct (String.eqb_spec s "completed") as [-> | _]; cbn; [lia|].
  destruct (String.eqb_spec s "processing") as [-> | _]; cbn; [lia|].
  destruct (String.eqb s "failed"); lia.
Qed.

(** On a list of dicts the three counts are computed, and together they
    do not exceed the length of the list. *)
Lemma count_status_dicts (videos : list pyval) :
  forallb is_dict videos = true ->
  exists completed processing failed : Z,
    count_status "completed" videos = Ok completed
    /\ count_status "processing" videos = Ok processing
    /\ count_status "failed" videos = Ok failed
    /\ (0 <= completed)%Z /\ (0 <= processing)%Z /\ (0 <= failed)%Z
    /\ (completed + processing + failed <= Z.of_nat (List.length videos))%Z.
Proof.
  induction videos as [|v rest IH]; intros Hd.
  - exists 0%Z, 0%Z, 0%Z. cbn. repeat split; lia.
  - cbn [forallb] in Hd. apply andb_true_iff in Hd as [Hv Hrest].
    destruct (IH Hrest) as (c & p & f & Hc & Hp & Hf & Hc0 & Hp0 & Hf0 & Hsum).
    destruct v as [ | | | | | | d ]; try discriminate Hv.
    cbn [count_status py_get bind]. rewrite Hc, Hp, Hf. cbn [bind].
    pose proof (one_status
                  (match lookup "status" d with Some x => x | None => PNone end))
      as H1.
    do 3 eexists. split; [reflexivity|]. split; [reflexivity|].
    split; [reflexivity|].
    rewrite length_cons, Nat2Z.inj_succ.
    repeat match goal with
           | |- context [py_eq_str ?a ?b] => destruct (py_eq_str a b)
           | H : context [py_eq_str ?a ?b] |- _ => destruct (py_eq_str a b)
           end; repeat split; lia.
Qed.

(** C10. For every list of video dicts, [compute_api_usage_stats] returns
    the stats dict in which [total_videos] is the length of the list,
    [remaining_quota] is [max(1000 - total_videos, 0)], hence not
    negative, and the completed, processing and failed counts together do
    not exceed [total_videos]. *)
Theorem C10_usage_stats (videos : list pyval) :
  forallb is_dict videos = true ->
  exists (completed processing failed : Z) (usage_percentage : pyval),
    let total := Z.of_nat (List.length videos) in
    compute_api_usage_stats videos
      = Ok (PDict
              [ ("total_videos", PInt total);
                ("completed_videos", PInt completed);
                ("processing_videos", PInt processing);
                ("failed_videos", PInt failed);
                ("monthly_quota", PInt 1000);
                ("remaining_quota", PInt (Z.max (1000 - total) 0));
                ("usage_percentage", usage_percentage) ])
    /\ (0 <= Z.max (1000 - total) 0)%Z
    /\ (completed + processing + failed <= total)%Z.
Proof.
  intros Hd.
  destruct (count_status_dicts videos Hd)
    as (c & p & f & Hc & Hp & Hf & _ & _ & _ & Hsum).
  exists c, p, f. eexists. cbn zeta.
  unfold compute_api_usage_stats. rewrite Hc, Hp, Hf. cbn [bind].
  split; [reflexivity|]. split; [lia|exact Hsum].
Qed.

(** What [transform_video_data] returns is a list of dicts. *)
Lemma transform_gives_dicts (api_videos : pyval) (videos : list pyval) :
  transform_video_data api_videos = Ok videos ->
  forallb is_dict videos = true.
Proof.
  unfold transform_video_data.
  destruct (py_iter api_videos) as [items|]; cbn [bind]; [|discriminate].
  revert videos. induction items as [|v items IH]; intros videos H.
  - cbn in H. injection H as <-. reflexivity.
  - cbn [mapM] in H.
    destruct (video_status v) as [w|] eqn:Hw; cbn [bind] in H; [|discriminate].
    destruct (mapM video_status items) as [ws|]; cbn [bind] in H; [|discriminate].
    injection H as <-. cbn [forallb]. rewrite (IH ws eq_refl), andb_true_r.
    unfold video_status in Hw.
    repeat match type of Hw with
           | bind ?m _ = Ok _ =>
               destruct m; cbn [bind] in Hw; [|discriminate Hw]
           end.
    injection Hw as <-. reflexivity.
Qed.

(** ** C2 *)

Section Interleavings.
Variable g0 : globals.
Variable artifacts : list string.

Lemma replace_nth_Forall {A : Type} (P : A -> Prop) (i : nat) (x : A) (l : list A) :
  P x -> Forall P l -> Forall P (replace_nth i x l).
Proof.
  intros Hx Hl. revert i.
  induction Hl as [|y l Hy Hl IH]; intros i; cbn.
  - constructor.
  - destruct i; constructor; auto.
Qed.

Lemma nth_error_Forall {A : Type} (P : A -> Prop) (i : nat) (x : A) (l : list A) :
  Forall P l -> nth_error l i = Some x -> P x.
Proof.
  intros Hl Hn. rewrite Forall_forall in Hl. apply Hl.
  eapply nth_error_In; eauto.
Qed.

Lemma system_step_ok (i : nat) (s : system) :
  system_ok g0 artifacts s -> system_ok g0 artifacts (system_step i s).
Proof.
  intros (Hh & Hts). unfold system_step.
  destruct (nth_error (threads s) i) as [t|] eqn:Hn; [|split; assumption].
  pose proof (nth_error_Forall _ _ _ _ Hts Hn) as (Ha & Hc).
  destruct t as [[|a rest] | a rest | rest | | | c | c]; cbn [thread_step];
    try (split; assumption);
    try (destruct (lock_held s); [split; assumption|]);
    (split; cbn [shared threads];
     [|apply replace_nth_Forall; [split|assumption]]);
    try assumption; try discriminate; try contradiction.
  - (* dashboard_html = new_html *)
    right. apply Ha. left. reflexivity.
  - intros b Hb. apply Ha. right. exact Hb.
  - (* content = dashboard_html or placeholder *)
    intros c Hc'. injection Hc' as <-.
    exists (dashboard_html (shared s)). split; [exact Hh|reflexivity].
Qed.

Lemma run_schedule_ok (schedule : list nat) (s : system) :
  system_ok g0 artifacts s -> system_ok g0 artifacts (run_schedule schedule s).
Proof.
  revert s. induction schedule as [|i rest IH]; intros s Hs; [exact Hs|].
  cbn. apply IH. now apply system_step_ok.
Qed.

Lemma boot_ok (handlers : nat) :
  system_ok g0 artifacts (boot g0 artifacts handlers).
Proof.
  split.
  - left. reflexivity.
  - constructor.
    + split; [auto|discriminate].
    + apply Forall_forall. intros t Ht. apply repeat_spec in Ht as ->.
      split; [contradiction|discriminate].
Qed.

(** Whatever the interleaving, what a handler has read is what the
    globals serve when they hold one whole page. *)
Lemma reads_are_whole (handlers : nat) (schedule : list nat)
    (i : nat) (t : thread) (content : string) :
  nth_error (threads (run_schedule schedule (boot g0 artifacts handlers))) i
    = Some t ->
  content_read t = Some content ->
  content = served g0 (dashboard_html g0)
  \/ exists new_html, In new_html artifacts /\ content = served g0 new_html.
Proof.
  intros Hn Hc.
  destruct (run_schedule_ok schedule _ (boot_ok handlers)) as (_ & Hts).
  destruct (nth_error_Forall _ _ _ _ Hts Hn) as (_ & Hread).
  destruct (Hread content Hc) as (h & [-> | Hin] & ->); eauto.
Qed.

End Interleavings.

Lemma holders_replace (i : nat) (t t' : thread) (l : list thread) :
  nth_error l i = Some t ->
  (List.length (filter holds_lock (replace_nth i t' l))
   + (if holds_lock t then 1 else 0)
   = List.length (filter holds_lock l) + (if holds_lock t' then 1 else 0))%nat.
Proof.
  revert i. induction l as [|y l IH]; intros i Hn.
  - destruct i; discriminate.
  - destruct i as [|j]; cbn in Hn |- *.
    + injection Hn as ->. destruct (holds_lock t), (holds_lock t'); cbn; lia.
    + specialize (IH j Hn). destruct (holds_lock y); cbn; lia.
Qed.

Lemma system_step_lock (i : nat) (s : system) :
  lock_consistent s -> lock_consistent (system_step i s).
Proof.
  unfold lock_consistent, system_step. intros Hs.
  destruct (nth_error (threads s) i) as [t|] eqn:Hn; [|exact Hs].
  destruct (thread_step t (lock_held s) (shared s)) as [[[t' locked] g]|] eqn:Hstep;
    [|exact Hs].
  cbn [threads lock_held].
  pose proof (holders_replace i t t' (threads s) Hn) as Hcount.
  destruct t as [[|a rest] | a rest | rest | | | c | c]; cbn in Hstep;
    try discriminate Hstep;
    try (destruct (lock_held s) eqn:Hl; [discriminate Hstep|]);
    injection Hstep as <- <- <-; cbn in Hcount;
    try (destruct (lock_held s)); lia.
Qed.

(** Mutual exclusion: under every interleaving, at most one thread is
    inside its [with] block, and the lock is held exactly then. *)
Lemma mutual_exclusion (g : globals) (artifacts : list string) (handlers : nat)
    (schedule : list nat) :
  lock_consistent (run_schedule schedule (boot g artifacts handlers)).
Proof.
  assert (H0 : lock_consistent (boot g artifacts handlers)).
  { unfold lock_consistent, boot, start_system. cbn [threads lock_held].
    cbn [filter holds_lock].
    induction handlers as [|n IH]; [reflexivity|].
    cbn [repeat filter holds_lock]. exact IH. }
  revert H0. generalize (boot g artifacts handlers).
  induction schedule as [|i rest IH]; intros s Hs; [exact Hs|].
  cbn [run_schedule fold_left]. apply IH. now apply system_step_lock.
Qed.

(** C2. No partial reads: start the refresher, which will publish the
    pages [artifacts] one after the other, and any number of handlers;
    under every interleaving of their steps around the lock, the content a
    handler has read is the initial value of [dashboard_html] or exactly
    one of the published pages, in full, the placeholder standing in for
    a value that is the empty str. *)
Theorem C2_no_partial_reads
    (g : globals) (artifacts : list string) (handlers : nat)
    (schedule : list nat) (i : nat) (t : thread) (content : string) :
  nth_error (threads (run_schedule schedule (boot g artifacts handlers))) i
    = Some t ->
  content_read t = Some content ->
  content = (if String.eqb (dashboard_html g) EmptyString
             then loading_placeholder
             else dashboard_html g)
  \/ exists new_html,
       In new_html artifacts
       /\ content = (if String.eqb new_html EmptyString
                     then loading_placeholder
                     else new_html).
Proof.
  intros Hn Hc.
  destruct (reads_are_whole g artifacts handlers schedule i t content Hn Hc)
    as [-> | (h & Hin & ->)].
  - left. unfold served. now rewrite current_content_cases.
  - right. exists h. split; [exact Hin|].
    unfold served. now rewrite current_content_cases.
Qed.

End Properties.

(** * The properties on the example inputs *)

Section Witnesses.
Import Plain Examples EncodingExamples.

Lemma C1_counterexample :
  cycle_published good_env main_globals = true
  /\ after_good = globals_after (refresh_cycle good_env) main_globals
  /\ fetch_failed (net down_env) = true
  /\ dashboard_html (globals_after (refresh_cycle down_env) after_good)
     <> dashboard_html after_good.
Proof.
  split; [vm_compute; reflexivity|].
  split; [vm_compute; reflexivity|].
  split; [reflexivity|].
  apply String.eqb_neq. vm_compute. reflexivity.
Qed.

Lemma C1_witness :
  fetch_failed (net down_env) = true
  /\ exists (api_usage : pyval) (page : string) (e : exn),
       compute_api_usage_stats [] = Ok api_usage
       /\ generate_dashboard_html after_good
            (dashboard_data_of [] api_usage (utcnow down_env)) = Ok page
       /\ globals_after (refresh_cycle down_env) after_good
          = set_dashboard_html page after_good
       /\ events_of (refresh_cycle down_env) after_good
          = pass_events after_good [ErrorFetchingVideos e; DashboardRefreshed]
       /\ outcome_of (refresh_cycle down_env) after_good = Ok tt.
Proof.
  split; [reflexivity|].
  apply (C1_failed_fetch_publishes_empty_page down_env after_good).
  reflexivity.
Defined.

Lemma C2_witness :
  let s := run_schedule schedule (boot main_globals two_pages 2) in
  nth_error (threads s) 1 = Some (HandlerSent please_wait_placeholder)
  /\ nth_error (threads s) 2 = Some (HandlerSent "<html>one</html>")
  /\ ("<html>one</html>"
      = (if String.eqb (dashboard_html main_globals) EmptyString
         then loading_placeholder
         else dashboard_html main_globals)
      \/ exists new_html,
           In new_html two_pages
           /\ "<html>one</html>"
              = (if String.eqb new_html EmptyString
                 then loading_placeholder
                 else new_html)).
Proof.
  split; [reflexivity|]. split; [reflexivity|].
  apply (C2_no_partial_reads main_globals two_pages 2 schedule 2
           (HandlerSent "<html>one</html>")); reflexivity.
Defined.

Lemma C3_witness :
  outcome_of (fetch_videos (net null_status_env)) main_globals
    = Ok null_status_videos
  /\ globals_after (refresh_cycle null_status_env) main_globals = main_globals
  /\ outcome_of (refresh_cycle null_status_env) main_globals = Ok tt.
Proof.
  assert (Hfetch : outcome_of (fetch_videos (net null_status_env)) main_globals
                   = Ok null_status_videos) by run.
  split; [exact Hfetch|].
  destruct (C3_failed_render_keeps_cache null_status_env main_globals
              null_status_videos AttributeError Hfetch) as (Hg & Ho & _).
  - right; right. do 2 eexists.
    split; [run|]. split; run.
  - split; assumption.
Defined.



Lemma C5_counterexample :
  fetch_failed (net down_env) = true
  /\ body (do_GET "/"
             (globals_after (refresh_dashboard_periodically [down_env])
                main_globals))
     <> please_wait_placeholder
  /\ body (do_GET "/"
             (globals_after (refresh_dashboard_periodically [down_env])
                main_globals))
     <> loading_placeholder
  /\ body (do_GET "/"
             (globals_after (refresh_dashboard_periodically [down_env])
                main_globals))
     = dashboard_html (globals_after (refresh_cycle down_env) main_globals).
Proof.
  split; [reflexivity|].
  split; [apply String.eqb_neq; vm_compute; reflexivity|].
  split; [apply String.eqb_neq; vm_compute; reflexivity|].
  vm_compute; reflexivity.
Qed.

Lemma C5_witness :
  published_passes [null_status_env; null_status_env] main_globals = 0%nat
  /\ do_GET "/"
       (globals_after
          (refresh_dashboard_periodically [null_status_env; null_status_env])
          main_globals)
     = {| status := 200;
          headers := [("Content-type", "text/html; charset=utf-8")];
          body := please_wait_placeholder;
          raised := None |}.
Proof.
  assert (Hnone : published_passes [null_status_env; null_status_env] main_globals
                  = 0%nat) by (vm_compute; reflexivity).
  split; [exact Hnone|].
  exact (proj1 (C5_placeholder_before_first_publish
                  [null_status_env; null_status_env] "/"
                  (or_introl eq_refl)) Hnone).
Defined.

Lemma C7_counterexample :
  ~ (200 <= 300 < 300)%Z
  /\ outcome_of (fetch_videos multiple_choices) module_globals
     = Ok (PList [video])
  /\ outcome_of (fetch_videos multiple_choices) module_globals
     <> Ok (PList []).
Proof.
  split; [lia|]. split; [run|].
  lazy -[runtime]. discriminate.
Qed.

Lemma C7_witness :
  outcome_of (fetch_videos unavailable) module_globals = Ok (PList [])
  /\ outcome_of (fetch_videos NoResponse) module_globals = Ok (PList []).
Proof.
  split.
  - apply (proj1 (proj2 (C7_fetch_videos_never_raises unavailable module_globals))).
    right. exists 503%Z, (Some (PList [video])).
    split; [reflexivity|]. left. lia.
  - apply (proj1 (proj2 (C7_fetch_videos_never_raises NoResponse module_globals))).
    left. reflexivity.
Defined.

Lemma C8_witness :
  dashboard_html module_globals <> dashboard_html main_globals
  /\ generate_dashboard_html module_globals empty_data
     = generate_dashboard_html main_globals empty_data.
Proof.
  split; [discriminate|].
  apply (C8_renderer_deterministic module_globals main_globals empty_data).
  reflexivity.
Defined.

Lemma C9_witness :
  generate_dashboard_html main_globals empty_data = Ok empty_page
  /\ exists rest : string,
       empty_page
       = String.concat lf head_open ++ lf
         ++ "  <meta http-equiv='refresh' content='300'>" ++ lf ++ rest.
Proof.
  assert (Hgen : generate_dashboard_html main_globals empty_data = Ok empty_page)
    by (vm_compute; reflexivity).
  split; [exact Hgen|].
  exact (proj1 (C9_meta_refresh_in_artifact main_globals empty_data empty_page Hgen)).
Defined.

Lemma C10_witness :
  forallb is_dict mixed_videos = true
  /\ exists (completed processing failed : Z) (usage_percentage : pyval),
       let total := Z.of_nat (List.length mixed_videos) in
       compute_api_usage_stats mixed_videos
         = Ok (PDict
                 [ ("total_videos", PInt total);
                   ("completed_videos", PInt completed);
                   ("processing_videos", PInt processing);
                   ("failed_videos", PInt failed);
                   ("monthly_quota", PInt 1000);
                   ("remaining_quota", PInt (Z.max (1000 - total) 0));
                   ("usage_percentage", usage_percentage) ])
       /\ (0 <= Z.max (1000 - total) 0)%Z
       /\ (completed + processing + failed <= total)%Z.
Proof.
  split; [reflexivity|].
  apply (C10_usage_stats mixed_videos). reflexivity.
Defined.

End Witnesses.

(** * Further properties of the code *)

Section MoreProperties.
Context {R : Runtime}.

Lemma get_or_none_dict (d : list (string * pyval)) (k : string) :
  get_or_none (PDict d) k = Ok (get_default d k PNone).
Proof.
  unfold get_or_none, get_default, py_get, bind.
  destruct (lookup k d) as [x|]; [|reflexivity].
  destruct x; reflexivity.
Qed.

Lemma video_status_dict (d : list (string * pyval)) :
  video_status (PDict d)
  = Ok (PDict
          [ ("id", PStr (py_str (get_default d "id" (PStr EmptyString))));
            ("title", get_default d "title" (PStr "Untitled"));
            ("template_name", get_default d "template_name" (PStr "Unknown Template"));
            ("voice_name", get_default d "voice_name" (PStr "Unknown Voice"));
            ("status", get_default d "status" (PStr "unknown"));
            ("created_at", get_default d "created_at" (PStr EmptyString));
            ("completed_at", get_default d "completed_at" PNone);
            ("thumbnail_url", get_default d "thumbnail_url" PNone);
            ("video_url", get_default d "video_url" PNone);
            ("duration", get_default d "duration" PNone) ]).
Proof.
  unfold video_status. rewrite !get_or_none_dict. reflexivity.
Qed.

Lemma mapM_is_ok {A B : Type} (f : A -> result B) (l : list A) :
  is_ok (mapM f l) = forallb (fun x => is_ok (f x)) l.
Proof.
  induction l as [|x l IH]; [reflexivity|].
  cbn [mapM forallb]. destruct (f x); cbn [bind is_ok]; [|reflexivity].
  rewrite <- IH. destruct (mapM f l); reflexivity.
Qed.

Lemma mapM_length {A B : Type} (f : A -> result B) (l : list A) (l' : list B) :
  mapM f l = Ok l' -> List.length l' = List.length l.
Proof.
  revert l'. induction l as [|x l IH]; intros l' H; cbn [mapM] in H.
  - injection H as <-. reflexivity.
  - destruct (f x); cbn [bind] in H; [|discriminate].
    destruct (mapM f l); cbn [bind] in H; [|discriminate].
    injection H as <-. cbn. f_equal. now apply IH.
Qed.

Lemma mapM_Forall {A B : Type} (f : A -> result B) (P : B -> Prop)
    (l : list A) (l' : list B) :
  (forall x y, f x = Ok y -> P y) -> mapM f l = Ok l' -> Forall P l'.
Proof.
  intros HP. revert l'. induction l as [|x l IH]; intros l' H; cbn [mapM] in H.
  - injection H as <-. constructor.
  - destruct (f x) eqn:Hx; cbn [bind] in H; [|discriminate].
    destruct (mapM f l); cbn [bind] in H; [|discriminate].
    injection H as <-. constructor; eauto.
Qed.

(** The first exception of a loop is the first one its body raises. *)
Lemma mapM_raise {A B : Type} (f : A -> result B) (e0 : exn) (l : list A) (e : exn) :
  (forall x e', f x = Raise e' -> e' = e0) -> mapM f l = Raise e -> e = e0.
Proof.
  intros Hf. induction l as [|x l IH]; intros H; cbn [mapM] in H; [discriminate|].
  destruct (f x) eqn:Hx; cbn [bind] in H.
  - destruct (mapM f l); cbn [bind] in H; [discriminate|].
    injection H as <-. now apply IH.
  - injection H as <-. eauto.
Qed.

Lemma forallb_agree {A : Type} (f g : A -> bool) (l : list A) :
  (forall x, f x = g x) -> forallb f l = forallb g l.
Proof.
  intros H. induction l as [|x l IH]; [reflexivity|].
  cbn. now rewrite H, IH.
Qed.

Lemma video_status_ok_iff (v : pyval) : is_ok (video_status v) = is_dict v.
Proof.
  destruct v; try reflexivity. rewrite video_status_dict. reflexivity.
Qed.

(** X1. On a list of dicts [transform_video_data] returns one dict per
    element, in as many elements, each with the ten keys of the dashboard
    model in order and a str under [id]. *)
Theorem transform_dicts (l : list pyval) :
  forallb is_dict l = true ->
  exists videos,
    transform_video_data (PList l) = Ok videos
    /\ List.length videos = List.length l
    /\ Forall (fun v => exists d s,
                 v = PDict d /\ map fst d = video_keys
                 /\ lookup "id" d = Some (PStr s)) videos.
Proof.
  intros Hd. unfold transform_video_data. cbn [py_iter bind].
  destruct (mapM video_status l) as [videos|e] eqn:Hm.
  - exists videos. split; [reflexivity|]. split; [eapply mapM_length; eauto|].
    eapply mapM_Forall; [|exact Hm].
    intros x y Hxy. destruct x; try discriminate Hxy.
    rewrite video_status_dict in Hxy. injection Hxy as <-.
    do 2 eexists. repeat split.
  - pose proof (mapM_is_ok video_status l) as H. rewrite Hm in H. cbn in H.
    rewrite (forallb_agree _ _ l video_status_ok_iff) in H. congruence.
Qed.

(** X2. On a list, [transform_video_data] raises [AttributeError]
    exactly when some element is not a dict; on [None], a bool or a
    number it raises [TypeError]. *)
Theorem transform_raises (l : list pyval) (v : pyval) :
  (transform_video_data (PList l) = Raise AttributeError
   <-> forallb is_dict l = false)
  /\ (not_iterable v = true -> transform_video_data v = Raise TypeError).
Proof.
  split.
  - unfold transform_video_data. cbn [py_iter bind].
    pose proof (mapM_is_ok video_status l) as H.
    rewrite (forallb_agree _ _ l video_status_ok_iff) in H.
    split.
    + intros Hr. rewrite Hr in H. cbn in H. congruence.
    + intros Hf. rewrite Hf in H.
      destruct (mapM video_status l) as [|e] eqn:Hm; [discriminate|].
      f_equal. eapply (mapM_raise video_status AttributeError); [|exact Hm].
      intros x e' Hx. destruct x; try (cbn in Hx; congruence).
      rewrite video_status_dict in Hx. discriminate.
  - destruct v; intros H; try discriminate H; reflexivity.
Qed.

(** A transformed video is transformed into itself. *)
Lemma video_status_fixed (v w : pyval) :
  video_status v = Ok w -> video_status w = Ok w.
Proof.
  intros H. destruct v; try discriminate H.
  rewrite video_status_dict in H. injection H as <-.
  rewrite video_status_dict. reflexivity.
Qed.

(** X3. [transform_video_data] normalises: applied to the list it
    returned, it returns that list again. *)
Theorem transform_idempotent (api_videos : pyval) (videos : list pyval) :
  transform_video_data api_videos = Ok videos ->
  transform_video_data (PList videos) = Ok videos.
Proof.
  unfold transform_video_data.
  destruct (py_iter api_videos) as [items|]; cbn [bind py_iter]; [|discriminate].
  revert videos. induction items as [|x items IH]; intros videos H; cbn [mapM] in H.
  - injection H as <-. reflexivity.
  - destruct (video_status x) as [w|] eqn:Hw; cbn [bind] in H; [|discriminate].
    destruct (mapM video_status items) as [ws|]; cbn [bind] in H; [|discriminate].
    injection H as <-. cbn [mapM].
    rewrite (video_status_fixed x w Hw). cbn [bind].
    rewrite (IH ws eq_refl). reflexivity.
Qed.

(** X4. The statistics are always computed on what
    [transform_video_data] returned: step 2 of a pass raises only in the
    transformation. *)
Theorem stats_after_transform (api_videos : pyval) (videos : list pyval) :
  transform_video_data api_videos = Ok videos ->
  exists stats, compute_api_usage_stats videos = Ok stats.
Proof.
  intros Ht. apply transform_gives_dicts in Ht.
  destruct (count_status_dicts videos Ht) as (c & p & f & Hc & Hp & Hf & _).
  unfold compute_api_usage_stats. rewrite Hc, Hp, Hf. cbn [bind]. eauto.
Qed.

Lemma renderable_is_dict (l : list pyval) :
  forallb renderable l = true -> forallb is_dict l = true.
Proof.
  induction l as [|x l IH]; [reflexivity|]. cbn [forallb].
  intros H. apply andb_true_iff in H as [Hx Hl].
  rewrite (IH Hl), andb_true_r. destruct x; try discriminate Hx; reflexivity.
Qed.

(** The row of a transformed video is rendered exactly when the status
    the API gave is absent or a str. *)
Lemma video_row_after_status (x w : pyval) :
  video_status x = Ok w -> is_ok (video_row w) = renderable x.
Proof.
  intros H. destruct x; try discriminate H.
  rewrite video_status_dict in H. injection H as <-.
  unfold video_row, if_get, esc_or_na, renderable, get_default.
  cbn [py_get py_getitem lookup String.eqb Ascii.eqb Bool.eqb bind].
  destruct (lookup "status" d) as [st|]; cbn [py_lower bind is_ok].
  - destruct st; cbn [py_lower bind is_ok]; try reflexivity.
    repeat match goal with
           | |- context [py_truthy ?a] => destruct (py_truthy a); cbn [bind]
           end; reflexivity.
  - repeat match goal with
           | |- context [py_truthy ?a] => destruct (py_truthy a); cbn [bind]
           end; reflexivity.
Qed.

Lemma rows_after_transform (l videos : list pyval) :
  mapM video_status l = Ok videos ->
  is_ok (mapM video_row videos) = forallb renderable l.
Proof.
  rewrite mapM_is_ok. revert videos.
  induction l as [|x l IH]; intros videos H; cbn [mapM] in H.
  - injection H as <-. reflexivity.
  - destruct (video_status x) as [w|] eqn:Hw; cbn [bind] in H; [|discriminate].
    destruct (mapM video_status l) as [ws|]; cbn [bind] in H; [|discriminate].
    injection H as <-. cbn [forallb].
    rewrite (video_row_after_status x w Hw), (IH ws eq_refl). reflexivity.
Qed.

(** With the stats of [compute_api_usage_stats], only a row can make
    the renderer raise. *)
Lemma generate_after_compute (g : globals) (videos : list pyval)
    (stats : pyval) (ts : string) :
  compute_api_usage_stats videos = Ok stats ->
  is_ok (generate_dashboard_html g (dashboard_data_of videos stats ts))
  = is_ok (mapM video_row videos).
Proof.
  unfold compute_api_usage_stats. intros H.
  repeat match type of H with
         | bind ?m _ = Ok _ => destruct m; cbn [bind] in H; [|discriminate H]
         end.
  match type of H with Ok ?x = Ok _ => assert (Hs : x = stats) by congruence end.
  clear H. subst stats.
  unfold generate_dashboard_html, dashboard_data_of, usage_items.
  cbn [py_getitem lookup String.eqb Ascii.eqb Bool.eqb bind py_iter].
  destruct (mapM video_row videos); reflexivity.
Qed.

(** X5. Steps 2 and 3 of a pass succeed on the API's list exactly when
    every element is a dict whose [status] is absent or a str; one video
    with a null or numeric status makes the whole pass fail. *)
Theorem page_built_iff_renderable (g : globals) (l : list pyval) (ts : string) :
  is_ok (build_page g (PList l) ts) = forallb renderable l.
Proof.
  unfold build_page, transform_video_data. cbn [py_iter bind].
  destruct (mapM video_status l) as [videos|e] eqn:Hm; cbn [bind].
  - assert (Ht : transform_video_data (PList l) = Ok videos) by exact Hm.
    destruct (stats_after_transform _ _ Ht) as (stats & Hs).
    rewrite Hs. cbn [bind].
    rewrite (generate_after_compute g videos stats ts Hs).
    now apply rows_after_transform.
  - cbn [is_ok]. symmetry.
    destruct (forallb renderable l) eqn:Hr; [|reflexivity].
    apply renderable_is_dict in Hr.
    pose proof (mapM_is_ok video_status l) as H.
    rewrite (forallb_agree _ _ l video_status_ok_iff), Hr, Hm in H.
    discriminate H.
Qed.

Lemma concat_snoc (sep x : string) (l : list string) :
  l <> [] ->
  String.concat sep (l ++ [x]) = String.concat sep l ++ sep ++ x.
Proof.
  intros Hl. induction l as [|y l IH]; [congruence|].
  destruct l as [|z l].
  - reflexivity.
  - change ((y :: z :: l) ++ [x])%list with (y :: ((z :: l) ++ [x]))%list.
    rewrite concat_cons by discriminate. rewrite IH by discriminate.
    rewrite (concat_cons sep y (z :: l)) by discriminate.
    now rewrite !append_assoc.
Qed.

Lemma page_shape (g : globals) (dashboard_data : pyval) (page : string) :
  generate_dashboard_html g dashboard_data = Ok page ->
  exists middle : string,
    page = "<!DOCTYPE html>" ++ lf ++ middle ++ lf ++ html_template_content.
Proof.
  intros Hgen. unfold generate_dashboard_html in Hgen.
  repeat match type of Hgen with
         | bind ?m _ = Ok _ =>
             destruct m; cbn [bind] in Hgen; [|discriminate Hgen]
         end.
  match type of Hgen with
  | Ok ?x = Ok _ => assert (Hp : x = page) by congruence
  end.
  clear Hgen. subst page.
  unfold table_close.
  change [ "    </tbody>"; "  </table>"; html_template_content ]
    with ([ "    </tbody>"; "  </table>" ] ++ [html_template_content])%list.
  rewrite !List.app_assoc.
  rewrite concat_snoc by (unfold head_open; discriminate).
  rewrite <- !List.app_assoc. unfold head_open at 1.
  rewrite <- List.app_comm_cons.
  rewrite concat_cons by discriminate.
  match goal with
  | |- exists m, (_ ++ _ ++ ?c) ++ _ = _ => exists c
  end.
  reflexivity.
Qed.

Lemma page_not_empty (g : globals) (dashboard_data : pyval) (page : string) :
  generate_dashboard_html g dashboard_data = Ok page ->
  String.eqb page EmptyString = false.
Proof.
  intros H. destruct (page_shape g dashboard_data page H) as (m & ->).
  reflexivity.
Qed.

(** X6. Every page the renderer returns opens with the doctype line and
    closes with [html_template_content]. *)
Theorem page_opens_and_closes (g : globals) (dashboard_data : pyval) (page : string) :
  generate_dashboard_html g dashboard_data = Ok page ->
  exists middle : string,
    page = "<!DOCTYPE html>" ++ lf ++ middle ++ lf ++ html_template_content.
Proof. apply page_shape. Qed.

Lemma build_page_ok (g : globals) (api_videos : pyval) (ts page : string) :
  build_page g api_videos ts = Ok page ->
  exists videos stats,
    generate_dashboard_html g (dashboard_data_of videos stats ts) = Ok page.
Proof.
  unfold build_page, bind.
  destruct (transform_video_data api_videos) as [videos|]; [|discriminate].
  destruct (compute_api_usage_stats videos) as [stats|]; [|discriminate].
  eauto.
Qed.

(** X7. Publish, then read: when steps 2 and 3 of a pass build [page],
    a GET of a root path after the pass is answered 200 with exactly
    [page], whatever was stored before, provided [page] holds no lone
    surrogate; when it holds one, the status and the header are sent,
    nothing is written and the handler raises [UnicodeEncodeError]. *)
Theorem publish_then_get (env : cycle_env) (g : globals)
    (api_videos : pyval) (page path : string) :
  outcome_of (fetch_videos (net env)) g = Ok api_videos ->
  build_page g api_videos (utcnow env) = Ok page ->
  path = "/" \/ path = "/index.html" ->
  do_GET path (globals_after (refresh_cycle env) g)
  = if has_surrogate page
    then {| status := 200;
            headers := [("Content-type", "text/html; charset=utf-8")];
            body := EmptyString;
            raised := Some UnicodeEncodeError |}
    else {| status := 200;
            headers := [("Content-type", "text/html; charset=utf-8")];
            body := page;
            raised := None |}.
Proof.
  intros Hout Hpage Hpath.
  destruct (refresh_cycle_after_fetch env g api_videos Hout) as (msgs & Hfetch).
  unfold globals_after.
  rewrite (refresh_cycle_cases env g api_videos msgs Hfetch), Hpage. cbn [fst].
  rewrite (root_path_response _ path Hpath).
  destruct (build_page_ok _ _ _ _ Hpage) as (videos & stats & Hgen).
  rewrite current_content_cases. unfold set_dashboard_html; cbn [dashboard_html].
  rewrite (page_not_empty _ _ _ Hgen).
  unfold encode_utf8. destruct (has_surrogate page); reflexivity.
Qed.

(** X8. No pass is fatal: the loop raises nothing over any number of
    passes, and leaves the configured interval as it was. *)
Theorem loop_never_raises (envs : list cycle_env) (g : globals) :
  outcome_of (refresh_dashboard_periodically envs) g = Ok tt
  /\ refresh_interval_seconds
       (globals_after (refresh_dashboard_periodically envs) g)
     = refresh_interval_seconds g.
Proof.
  split.
  - revert g. induction envs as [|env rest IH]; intros g; [reflexivity|].
    destruct (loop_cons env rest g) as (_ & _ & Ho). rewrite Ho. apply IH.
  - destruct (loop_events envs g) as (_ & _ & _ & Hi). exact Hi.
Qed.

Lemma fetch_ignores_globals (reply : http_reply) (g1 g2 : globals) :
  outcome_of (fetch_videos reply) g1 = outcome_of (fetch_videos reply) g2.
Proof.
  unfold outcome_of, fetch_videos; cbn.
  unfold try_except, iobind, requests_get, iobind, emit, lift, ret; cbn.
  destruct reply as [|status_code json]; [reflexivity|].
  unfold raise_for_status, response_json; cbn.
  destruct ((400 <=? status_code)%Z && (status_code <? 600)%Z); [reflexivity|].
  destruct json as [data|]; [|reflexivity]. cbn.
  destruct data; try reflexivity.
  destruct (dict_mem "videos" d); [|reflexivity].
  unfold py_getitem. destruct (lookup "videos" d); reflexivity.
Qed.

Lemma build_page_interval (g1 g2 : globals) (api_videos : pyval) (ts : string) :
  refresh_interval_seconds g1 = refresh_interval_seconds g2 ->
  build_page g1 api_videos ts = build_page g2 api_videos ts.
Proof.
  intros Hi. unfold build_page, generate_dashboard_html. rewrite Hi. reflexivity.
Qed.

(** X10. What a pass publishes does not depend on what was stored: from
    two globals with the same interval, a pass that publishes from one
    publishes from the other, and the same page. *)
Theorem published_page_ignores_cache (env : cycle_env) (g1 g2 : globals) :
  refresh_interval_seconds g1 = refresh_interval_seconds g2 ->
  cycle_published env g1 = true ->
  cycle_published env g2 = true
  /\ dashboard_html (globals_after (refresh_cycle env) g1)
     = dashboard_html (globals_after (refresh_cycle env) g2).
Proof.
  intros Hi.
  destruct (fetch_videos_returns (net env) g1) as (v1 & m1 & Hf1 & _).
  destruct (fetch_videos_returns (net env) g2) as (v2 & m2 & Hf2 & _).
  assert (Hv : v1 = v2).
  { pose proof (fetch_ignores_globals (net env) g1 g2) as H.
    unfold outcome_of in H. rewrite Hf1, Hf2 in H. cbn in H. congruence. }
  subst v2.
  unfold cycle_published, outcome_of, globals_after.
  rewrite (refresh_try_cases env g1 v1 m1 Hf1), (refresh_try_cases env g2 v1 m2 Hf2).
  rewrite (refresh_cycle_cases env g1 v1 m1 Hf1), (refresh_cycle_cases env g2 v1 m2 Hf2).
  rewrite (build_page_interval g1 g2 v1 (utcnow env) Hi).
  destruct (build_page g2 v1 (utcnow env)); cbn; [auto|discriminate].
Qed.


(** ** Escaping *)

Lemma chars_app (a b : string) : chars (a ++ b) = (chars a ++ chars b)%list.
Proof. induction a as [|c a IH]; cbn; [reflexivity|now rewrite IH]. Qed.

Lemma escape_char_clean (c x : ascii) :
  In x (chars (escape_char c)) -> markup_char x = false.
Proof.
  assert (Hentity : forall e : string,
             forallb (fun y => negb (markup_char y)) (chars e) = true ->
             In x (chars e) -> markup_char x = false).
  { intros e He Hin. rewrite forallb_forall in He.
    apply negb_true_iff. now apply He. }
  unfold escape_char.
  destruct (Ascii.eqb c "&") eqn:E0; [now apply Hentity|].
  destruct (Ascii.eqb c "<") eqn:E1; [now apply Hentity|].
  destruct (Ascii.eqb c ">") eqn:E2; [now apply Hentity|].
  destruct (Ascii.eqb c (ascii_of_nat 34)) eqn:E3; [now apply Hentity|].
  destruct (Ascii.eqb c "'") eqn:E4; [now apply Hentity|].
  cbn [chars In]. intros [<- | []].
  unfold markup_char. rewrite E1, E2, E3, E4. reflexivity.
Qed.

Lemma html_escape_clean (s : string) (x : ascii) :
  In x (chars (html_escape s)) -> markup_char x = false.
Proof.
  induction s as [|c s IH]; cbn [html_escape chars In]; [contradiction|].
  rewrite chars_app. intros H. apply in_app_or in H as [H | H].
  - eapply escape_char_clean; eauto.
  - now apply IH.
Qed.

(** X12. What [esc] returns holds no [<], no [>] and no quote, whatever
    the value it is given. *)
Theorem esc_has_no_markup (text : pyval) (x : ascii) :
  In x (chars (esc text)) -> markup_char x = false.
Proof.
  unfold esc. destruct (negb (is_none text)).
  - apply html_escape_clean.
  - contradiction.
Qed.

Lemma html_escape_plain (s : string) :
  forallb (fun c => negb (special_char c)) (chars s) = true ->
  html_escape s = s.
Proof.
  induction s as [|c s IH]; cbn [chars forallb html_escape]; [reflexivity|].
  intros H. apply andb_true_iff in H as [Hc Hs]. rewrite (IH Hs).
  unfold special_char, markup_char in Hc. unfold escape_char.
  destruct (Ascii.eqb c "&"); [discriminate|].
  destruct (Ascii.eqb c "<"); [discriminate|].
  destruct (Ascii.eqb c ">"); [discriminate|].
  destruct (Ascii.eqb c (ascii_of_nat 34)); [discriminate|].
  destruct (Ascii.eqb c "'"); [discriminate|].
  reflexivity.
Qed.

(** X13. Text without [&], [<], [>] or a quote goes through [esc]
    unchanged. *)
Theorem esc_plain_text (s : string) :
  forallb (fun c => negb (special_char c)) (chars s) = true ->
  esc (PStr s) = s.
Proof. intros H. unfold esc. cbn. now apply html_escape_plain. Qed.

(** ** Threads *)

Lemma filter_holders_nil (l : list thread) :
  List.length (filter holds_lock l) = 0%nat ->
  forall t, In t l -> holds_lock t = false.
Proof.
  induction l as [|y l IH]; cbn [filter]; intros H t Ht; [contradiction|].
  destruct (holds_lock y) eqn:Hy; [discriminate|].
  destruct Ht as [<- | Ht]; auto.
Qed.

Lemma filter_holders_some (l : list thread) :
  List.length (filter holds_lock l) <> 0%nat ->
  exists t, In t l /\ holds_lock t = true.
Proof.
  induction l as [|y l IH]; cbn [filter]; intros H; [cbn in H; congruence|].
  destruct (holds_lock y) eqn:Hy.
  - exists y. split; [left; reflexivity|exact Hy].
  - destruct (IH H) as (t & Ht & Hh). exists t. split; [right|]; assumption.
Qed.

Lemma holder_can_step (t : thread) (locked : bool) (g : globals) :
  holds_lock t = true -> thread_step t locked g <> None.
Proof.
  destruct t as [[|a r]| | | | | |]; cbn; intros H; try discriminate H;
    discriminate.
Qed.

Lemma waiting_can_step (t : thread) (g : globals) :
  holds_lock t = false -> thread_done t = false ->
  thread_step t false g <> None.
Proof.
  destruct t as [[|a r]| | | | | |]; cbn; intros H1 H2;
    try discriminate H1; try discriminate H2; discriminate.
Qed.

Lemma enabled_of_step (s : system) (t : thread) :
  In t (threads s) ->
  thread_step t (lock_held s) (shared s) <> None ->
  exists i, enabled i s = true.
Proof.
  intros Hin Hstep. apply In_nth_error in Hin as (i & Hi).
  exists i. unfold enabled. rewrite Hi.
  destruct (thread_step t (lock_held s) (shared s)); congruence.
Qed.

(** X14. No deadlock: under every interleaving, either every thread has
    finished, or some thread can take its next step. *)
Theorem no_deadlock (g : globals) (artifacts : list string) (handlers : nat)
    (schedule : list nat) :
  let s := run_schedule schedule (boot g artifacts handlers) in
  forallb thread_done (threads s) = true \/ exists i, enabled i s = true.
Proof.
  intros s.
  pose proof (mutual_exclusion g artifacts handlers schedule) as Hlock.
  fold s in Hlock. unfold lock_consistent in Hlock.
  destruct (lock_held s) eqn:Hl.
  - right. destruct (filter_holders_some (threads s)) as (t & Hin & Hh);
      [rewrite Hlock; discriminate|].
    apply (enabled_of_step s t Hin). now apply holder_can_step.
  - destruct (forallb thread_done (threads s)) eqn:Hd; [left; reflexivity|right].
    assert (Hex : exists t, In t (threads s) /\ thread_done t = false).
    { clear - Hd. induction (threads s) as [|y l IH]; [discriminate|].
      cbn [forallb] in Hd. destruct (thread_done y) eqn:Hy.
      - destruct (IH Hd) as (t & Ht & Hn). exists t. split; [right|]; assumption.
      - exists y. split; [left; reflexivity|exact Hy]. }
    destruct Hex as (t & Hin & Hnd).
    apply (enabled_of_step s t Hin). rewrite Hl.
    apply waiting_can_step; [|exact Hnd].
    now apply (filter_holders_nil (threads s) Hlock).
Qed.

Lemma holders_at_most_one (l : list thread) (i j : nat) (ti tj : thread) :
  (List.length (filter holds_lock l) <= 1)%nat ->
  nth_error l i = Some ti -> nth_error l j = Some tj ->
  holds_lock ti = true -> holds_lock tj = true -> i = j.
Proof.
  revert i j. induction l as [|y l IH]; intros i j Hlen Hi Hj Hti Htj.
  - destruct i; discriminate.
  - cbn [filter] in Hlen.
    destruct i as [|i], j as [|j]; cbn in Hi, Hj.
    + reflexivity.
    + injection Hi as ->. rewrite Hti in Hlen. cbn in Hlen.
      assert (H0 : List.length (filter holds_lock l) = 0%nat) by lia.
      apply nth_error_In in Hj.
      rewrite (filter_holders_nil l H0 tj Hj) in Htj. discriminate.
    + injection Hj as ->. rewrite Htj in Hlen. cbn in Hlen.
      assert (H0 : List.length (filter holds_lock l) = 0%nat) by lia.
      apply nth_error_In in Hi.
      rewrite (filter_holders_nil l H0 ti Hi) in Hti. discriminate.
    + f_equal. apply IH; try assumption.
      destruct (holds_lock y); cbn in Hlen; lia.
Qed.

(** X15. Mutual exclusion: under every interleaving, two threads inside
    their [with] blocks are the same thread, and the lock is then held. *)
Theorem one_thread_in_block (g : globals) (artifacts : list string)
    (handlers : nat) (schedule : list nat) (i j : nat) (ti tj : thread) :
  let s := run_schedule schedule (boot g artifacts handlers) in
  nth_error (threads s) i = Some ti ->
  nth_error (threads s) j = Some tj ->
  holds_lock ti = true -> holds_lock tj = true ->
  i = j /\ lock_held s = true.
Proof.
  intros s Hi Hj Hti Htj.
  pose proof (mutual_exclusion g artifacts handlers schedule) as Hlock.
  fold s in Hlock. unfold lock_consistent in Hlock.
  split.
  - apply (holders_at_most_one (threads s) i j ti tj); try assumption.
    rewrite Hlock. destruct (lock_held s); lia.
  - destruct (lock_held s); [reflexivity|].
    apply nth_error_In in Hi.
    rewrite (filter_holders_nil (threads s) Hlock ti Hi) in Hti. discriminate.
Qed.

(** X16. Started by the main block, with pages that are not empty, a
    handler serves the main block's page or one of the published pages,
    never the fallback of [do_GET]. *)
Theorem main_never_serves_fallback (artifacts : list string) (handlers : nat)
    (schedule : list nat) (i : nat) (t : thread) (content : string) :
  forallb (fun a => negb (String.eqb a EmptyString)) artifacts = true ->
  nth_error (threads (run_schedule schedule (boot main_globals artifacts handlers))) i
    = Some t ->
  content_read t = Some content ->
  content = please_wait_placeholder \/ In content artifacts.
Proof.
  intros Hne Hn Hc.
  destruct (reads_are_whole main_globals artifacts handlers schedule i t content Hn Hc)
    as [-> | (a & Hin & ->)].
  - left. reflexivity.
  - right. rewrite forallb_forall in Hne. specialize (Hne a Hin).
    unfold served, current_content, set_dashboard_html.
    cbn [dashboard_html py_truthy]. rewrite Hne. exact Hin.
Qed.

(** ** The order of the publishes *)

Lemma handler_step (t t' : thread) (locked locked' : bool) (g g' : globals) :
  is_handler t = true ->
  thread_step t locked g = Some (t', locked', g') ->
  is_handler t' = true /\ g' = g.
Proof.
  destruct t as [[|a r]| | | | | |]; cbn; intros H Hs; try discriminate H.
  - destruct locked; [discriminate|]. injection Hs as <- <- <-. auto.
  - injection Hs as <- <- <-. auto.
  - injection Hs as <- <- <-. auto.
  - discriminate.
Qed.

Lemma replace_nth_handlers (j : nat) (t' : thread) (l : list thread) :
  is_handler t' = true -> forallb is_handler l = true ->
  forallb is_handler (replace_nth j t' l) = true.
Proof.
  intros Ht. revert j. induction l as [|y l IH]; intros j H; [reflexivity|].
  cbn [forallb] in H. apply andb_true_iff in H as [Hy Hl].
  destruct j; cbn [replace_nth forallb].
  - now rewrite Ht, Hl.
  - now rewrite Hy, IH.
Qed.

Lemma nth_handlers (j : nat) (t : thread) (l : list thread) :
  forallb is_handler l = true -> nth_error l j = Some t -> is_handler t = true.
Proof.
  intros H Hn. rewrite forallb_forall in H. apply H.
  eapply nth_error_In; eauto.
Qed.

Lemma step_in_order (g0 : globals) (artifacts : list string) (i : nat) (s : system) :
  publishing_in_order g0 artifacts s ->
  publishing_in_order g0 artifacts (system_step i s).
Proof.
  intros (t0 & others & done & Hts & Ht0 & Hoth & Hart & Hlast).
  unfold system_step. rewrite Hts.
  destruct i as [|j]; cbn [nth_error].
  - destruct t0 as [[|a r]| a r | r | | | |]; try discriminate Ht0; cbn [thread_step].
    + exists (RefresherReady []), others, done. rewrite Hts. auto.
    + destruct (lock_held s).
      * exists (RefresherReady (a :: r)), others, done. rewrite Hts. auto.
      * exists (RefresherLocked a r), others, done. cbn. auto.
    + exists (RefresherStored r), others, (done ++ [a])%list. cbn.
      repeat split; auto.
      * cbn in Hart. now rewrite <- List.app_assoc.
      * now rewrite last_last.
    + exists (RefresherReady r), others, done. cbn. auto.
  - destruct (nth_error others j) as [t|] eqn:Hn.
    + pose proof (nth_handlers j t others Hoth Hn) as Hh.
      destruct (thread_step t (lock_held s) (shared s)) as [[[t' l'] g']|] eqn:Hs.
      * destruct (handler_step _ _ _ _ _ _ Hh Hs) as (Hh' & ->).
        exists t0, (replace_nth j t' others), done. cbn.
        repeat split; auto. now apply replace_nth_handlers.
      * exists t0, others, done. rewrite Hts. auto.
    + exists t0, others, done. rewrite Hts. auto.
Qed.

Lemma run_in_order (g0 : globals) (artifacts : list string) (handlers : nat)
    (schedule : list nat) :
  publishing_in_order g0 artifacts
    (run_schedule schedule (boot g0 artifacts handlers)).
Proof.
  assert (H0 : publishing_in_order g0 artifacts (boot g0 artifacts handlers)).
  { exists (RefresherReady artifacts), (repeat HandlerReady handlers), [].
    cbn. repeat split.
    induction handlers as [|n IH]; [reflexivity|exact IH]. }
  revert H0. generalize (boot g0 artifacts handlers).
  induction schedule as [|i rest IH]; intros s Hs; [exact Hs|].
  cbn [run_schedule fold_left]. apply IH. now apply step_in_order.
Qed.

(** X17. The pages are published in order: once the refresher has
    finished, [dashboard_html] is the last of its pages, or the initial
    value when it had none. *)
Theorem last_page_wins (g : globals) (artifacts : list string) (handlers : nat)
    (schedule : list nat) :
  let s := run_schedule schedule (boot g artifacts handlers) in
  nth_error (threads s) 0 = Some (RefresherReady []) ->
  dashboard_html (shared s) = last artifacts (dashboard_html g).
Proof.
  intros s Hdone.
  destruct (run_in_order g artifacts handlers schedule)
    as (t0 & others & done & Hts & _ & _ & Hart & Hlast).
  fold s in Hts, Hlast. rewrite Hts in Hdone. cbn in Hdone.
  injection Hdone as ->. cbn in Hart. rewrite List.app_nil_r in Hart.
  subst done. exact Hlast.
Qed.

(** ** A [videos] value that cannot be iterated *)

(** X18. When the API answers a dict whose [videos] is null, a bool or
    a number, [fetch_videos] returns it without complaint, the
    transformation raises [TypeError], and the pass prints the error and
    leaves the globals as they were. *)
Theorem uniterable_videos_keep_cache (env : cycle_env) (g : globals)
    (status_code : Z) (d : list (string * pyval)) (x : pyval) :
  net env = Response status_code (Some (PDict d)) ->
  ~ (400 <= status_code < 600)%Z ->
  lookup "videos" d = Some x ->
  not_iterable x = true ->
  refresh_cycle env g
  = (g, pass_events g [ErrorDuringRefresh TypeError], Ok tt).
Proof.
  intros Hnet Hs Hx Hni.
  assert (Hfetch : fetch_videos (net env) g
                   = (g, HttpGet list_videos_url :: map Print [], Ok x)).
  { rewrite Hnet. unfold fetch_videos; cbn.
    unfold try_except, iobind, requests_get, iobind, emit, lift, ret,
      raise_for_status, response_json; cbn.
    replace ((400 <=? status_code)%Z && (status_code <? 600)%Z) with false.
    - cbn. unfold dict_mem. rewrite Hx. cbn. reflexivity.
    - symmetry. apply andb_false_iff.
      destruct (Z.leb_spec 400 status_code); [right|left; reflexivity].
      apply Z.ltb_ge. lia. }
  rewrite (refresh_cycle_cases env g x [] Hfetch).
  unfold build_page, transform_video_data.
  destruct x; try discriminate Hni; reflexivity.
Qed.

End MoreProperties.

(** ** The test runner *)

Section RunnerProperties.
Context {R : Runtime}.
Variable run_all_tests : string -> string -> result pyval.
Variable print_test_result : pyval -> result unit.

(** X19. When [PROXY_URL] or [PROXY_API_KEY] is unset or empty, the
    script prints the message and exits with 1 without running a test. *)
Theorem runner_needs_both_variables (PROXY_URL PROXY_API_KEY : option string) :
  PROXY_URL = None \/ PROXY_URL = Some EmptyString
  \/ PROXY_API_KEY = None \/ PROXY_API_KEY = Some EmptyString ->
  test_runner run_all_tests print_test_result PROXY_URL PROXY_API_KEY
  = ([RunnerPrint missing_message], Exit 1).
Proof.
  intros [-> | [-> | [-> | ->]]]; unfold test_runner; cbn;
    try reflexivity.
  - destruct PROXY_URL as [s|]; [|reflexivity].
    cbn. destruct (String.eqb s EmptyString); reflexivity.
  - destruct PROXY_URL as [s|]; [|reflexivity].
    cbn. destruct (String.eqb s EmptyString); reflexivity.
Qed.

(** X20. The script ends with status 0 exactly when both variables are
    set and not empty, [run_all_tests] and [print_test_result] return, and
    the results have a true value under [success]. *)
Theorem runner_exits_zero_iff (PROXY_URL PROXY_API_KEY : option string) :
  exit_status
    (snd (test_runner run_all_tests print_test_result PROXY_URL PROXY_API_KEY))
  = 0%Z
  <-> exists url key test_results success,
        PROXY_URL = Some url /\ url <> EmptyString
        /\ PROXY_API_KEY = Some key /\ key <> EmptyString
        /\ run_all_tests url key = Ok test_results
        /\ print_test_result test_results = Ok tt
        /\ py_getitem test_results "success" = Ok success
        /\ py_truthy success = true.
Proof.
  unfold test_runner. split.
  - destruct PROXY_URL as [url|]; cbn; [|discriminate].
    destruct (String.eqb_spec url EmptyString) as [->|Hu]; cbn; [discriminate|].
    destruct PROXY_API_KEY as [key|]; cbn; [|discriminate].
    destruct (String.eqb_spec key EmptyString) as [->|Hk]; cbn; [discriminate|].
    destruct (run_all_tests url key) as [results|] eqn:Hr; cbn; [|discriminate].
    destruct (print_test_result results) as [[]|] eqn:Hp; cbn; [|discriminate].
    destruct (py_getitem results "success") as [success|] eqn:Hs; cbn; [|discriminate].
    destruct (py_truthy success) eqn:Ht; cbn; [|discriminate].
    intros _. exists url, key, results, success. repeat split; assumption.
  - intros (url & key & results & success & -> & Hu & -> & Hk & Hr & Hp & Hs & Ht).
    cbn. apply String.eqb_neq in Hu, Hk. rewrite Hu, Hk. cbn.
    rewrite Hr, Hp, Hs, Ht. reflexivity.
Qed.

End RunnerProperties.

(** * The further properties on the example inputs *)

Section MoreWitnesses.
Import Plain Examples MoreExamples EncodingExamples.

Lemma transform_dicts_witness :
  exists videos,
    transform_video_data (PList [video; PDict []]) = Ok videos
    /\ List.length videos = 2%nat
    /\ Forall (fun v => exists d s,
                 v = PDict d /\ map fst d = video_keys
                 /\ lookup "id" d = Some (PStr s)) videos.
Proof. apply (transform_dicts [video; PDict []]). reflexivity. Defined.

Lemma transform_raises_witness :
  transform_video_data (PList [video; PInt 3]) = Raise AttributeError
  /\ transform_video_data PNone = Raise TypeError.
Proof.
  split.
  - apply (proj1 (transform_raises [video; PInt 3] PNone)). reflexivity.
  - apply (proj2 (transform_raises [] PNone)). reflexivity.
Defined.

Lemma transform_idempotent_witness :
  transform_video_data (PList [video]) = Ok [normal_video]
  /\ transform_video_data (PList [normal_video]) = Ok [normal_video].
Proof.
  assert (H : transform_video_data (PList [video]) = Ok [normal_video]) by run.
  split; [exact H|].
  exact (transform_idempotent (PList [video]) [normal_video] H).
Defined.

Lemma stats_after_transform_witness :
  transform_video_data (PList [video]) = Ok [normal_video]
  /\ exists stats, compute_api_usage_stats [normal_video] = Ok stats.
Proof.
  assert (H : transform_video_data (PList [video]) = Ok [normal_video]) by run.
  split; [exact H|].
  exact (stats_after_transform (PList [video]) [normal_video] H).
Defined.

Lemma page_opens_and_closes_witness :
  generate_dashboard_html main_globals empty_data = Ok empty_page
  /\ exists middle : string,
       empty_page = "<!DOCTYPE html>" ++ lf ++ middle ++ lf ++ "</html>".
Proof.
  assert (Hgen : generate_dashboard_html main_globals empty_data = Ok empty_page)
    by (vm_compute; reflexivity).
  split; [exact Hgen|].
  exact (page_opens_and_closes main_globals empty_data empty_page Hgen).
Defined.

Lemma publish_then_get_witness :
  do_GET "/" (globals_after (refresh_cycle good_env) main_globals)
  = {| status := 200;
       headers := [("Content-type", "text/html; charset=utf-8")];
       body := dashboard_html after_good;
       raised := None |}
  /\ do_GET "/" (globals_after (refresh_cycle surrogate_env) main_globals)
     = {| status := 200;
          headers := [("Content-type", "text/html; charset=utf-8")];
          body := EmptyString;
          raised := Some UnicodeEncodeError |}.
Proof.
  split.
  - assert (Hclean : has_surrogate (dashboard_html after_good) = false)
      by (vm_compute; reflexivity).
    rewrite (publish_then_get good_env main_globals (PList [video])
               (dashboard_html after_good) "/").
    + rewrite Hclean. reflexivity.
    + run.
    + vm_compute; reflexivity.
    + left. reflexivity.
  - assert (Hdirty : has_surrogate (dashboard_html after_surrogate) = true)
      by (vm_compute; reflexivity).
    rewrite (publish_then_get surrogate_env main_globals
               (PList [PDict [("id", PInt 9); ("title", PStr lone_surrogate)]])
               (dashboard_html after_surrogate) "/").
    + rewrite Hdirty. reflexivity.
    + run.
    + vm_compute; reflexivity.
    + left. reflexivity.
Defined.


Lemma published_page_ignores_cache_witness :
  dashboard_html main_globals <> dashboard_html after_good
  /\ cycle_published good_env after_good = true
  /\ dashboard_html (globals_after (refresh_cycle good_env) main_globals)
     = dashboard_html (globals_after (refresh_cycle good_env) after_good).
Proof.
  split; [apply String.eqb_neq; vm_compute; reflexivity|].
  apply (published_page_ignores_cache good_env main_globals after_good).
  - reflexivity.
  - vm_compute; reflexivity.
Defined.

Lemma esc_has_no_markup_witness :
  In "&"%char (chars (esc (PStr "<b>Tom & 'Jerry'</b>")))
  /\ markup_char "&" = false.
Proof.
  assert (Hin : In "&"%char (chars (esc (PStr "<b>Tom & 'Jerry'</b>"))))
    by (left; reflexivity).
  split; [exact Hin|].
  exact (esc_has_no_markup (PStr "<b>Tom & 'Jerry'</b>") "&"%char Hin).
Defined.

Lemma esc_plain_text_witness : esc (PStr "Intro 7 (final)") = "Intro 7 (final)".
Proof. apply (esc_plain_text "Intro 7 (final)"). reflexivity. Defined.

Lemma one_thread_in_block_witness :
  let s := run_schedule [1; 2; 0]%nat (boot main_globals two_pages 2) in
  nth_error (threads s) 1 = Some HandlerLocked
  /\ lock_held s = true.
Proof.
  split; [reflexivity|].
  apply (one_thread_in_block main_globals two_pages 2 [1; 2; 0]%nat 1 1
           HandlerLocked HandlerLocked); reflexivity.
Defined.

Lemma main_never_serves_fallback_witness :
  nth_error
    (threads (run_schedule schedule (boot main_globals two_pages 2))) 1
  = Some (HandlerSent please_wait_placeholder)
  /\ (please_wait_placeholder = please_wait_placeholder
      \/ In please_wait_placeholder two_pages).
Proof.
  split; [reflexivity|].
  apply (main_never_serves_fallback two_pages 2 schedule 1
           (HandlerSent please_wait_placeholder)); reflexivity.
Defined.

Lemma last_page_wins_witness :
  let s := run_schedule refresher_only (boot main_globals two_pages 2) in
  nth_error (threads s) 0 = Some (RefresherReady [])
  /\ dashboard_html (shared s) = "<html>two</html>".
Proof.
  split; [reflexivity|].
  apply (last_page_wins main_globals two_pages 2 refresher_only). reflexivity.
Defined.

Lemma uniterable_videos_keep_cache_witness :
  refresh_cycle null_videos_env after_good
  = (after_good, pass_events after_good [ErrorDuringRefresh TypeError], Ok tt).
Proof.
  apply (uniterable_videos_keep_cache null_videos_env after_good 200
           [("videos", PNone)] PNone); try reflexivity.
  lia.
Defined.

Lemma runner_needs_both_variables_witness :
  test_runner passing_tests quiet_print (Some "http://proxy.example") None
  = ([RunnerPrint missing_message], Exit 1).
Proof.
  apply (runner_needs_both_variables passing_tests quiet_print).
  right; right; left. reflexivity.
Defined.

Lemma runner_exits_zero_iff_witness :
  exit_status
    (snd (test_runner passing_tests quiet_print
            (Some "http://proxy.example") (Some "secret")))
  = 0%Z.
Proof.
  apply (proj2 (runner_exits_zero_iff passing_tests quiet_print
                  (Some "http://proxy.example") (Some "secret"))).
  exists "http://proxy.example", "secret",
    (PDict [("success", PBool true); ("passed", PInt 3)]), (PBool true).
  repeat split; discriminate.
Defined.

End MoreWitnesses.
